(** * Guardrail-gated medicine query bot: a shallow embedding of [main.py]

    The development follows the layout of the Python module: Python values
    and their truthiness, string helpers, the context records and their
    rendering, the guardrail function, the runner, the per-query driver
    [run_query], the interactive loop [main] and the module body [program].
    The external collaborators (the language model behind [Runner.run], the
    terminal) are modelled by an oracle and by an event log. *)

From Stdlib Require Import ZArith String Ascii List Bool Lia.
From Stdlib Require Import PrimFloat.
From stdpp Require Import base strings gmap pretty.

Set Warnings "-register-all".
Local Open Scope string_scope.
Local Open Scope list_scope.

(** ** Characters the string literals of the source escape *)

Definition LF : string := String (ascii_of_nat 10) EmptyString.
Definition DQ : string := String (ascii_of_nat 34) EmptyString.

(** ** UTF-8, the byte form of a Python [str] *)

Module Utf8.

(** One code point from its UTF-8 bytes: one, two or three bytes (the
    shortest form only). *)
Definition continuation (n : N) : bool := ((128 <=? n) && (n <? 192))%N.

Definition decode1 (n1 : N) : option N :=
  if (n1 <? 128)%N then Some n1 else None.

Definition decode2 (n1 n2 : N) : option N :=
  if ((194 <=? n1) && (n1 <? 224))%N && continuation n2
  then Some ((n1 - 192) * 64 + (n2 - 128))%N
  else None.

Definition decode3 (n1 n2 n3 : N) : option N :=
  if ((224 <=? n1) && (n1 <? 240))%N && continuation n2 && continuation n3
  then let cp := ((n1 - 224) * 4096 + (n2 - 128) * 64 + (n3 - 128))%N in
       if (2048 <=? cp)%N then Some cp else None
  else None.

End Utf8.

(** ** Python values *)

Module Py.

(** The values the program handles.  A [dict] is a finite map; only string
    keys are modelled (the program looks up one string key).
    [VMedicineOutput] is an instance of the pydantic model of lines 92-94,
    whose field [isMedicineQuery] is declared [bool]. *)
Inductive value : Type :=
| VNone
| VBool (b : bool)
| VInt (z : Z)
| VFloat (f : float)
| VStr (s : string)
| VList (l : list value)
| VDict (d : gmap string value)
| VMedicineOutput (response : string) (isMedicineQuery : bool).

(** [bool(x)]: Python's truth value testing.  A pydantic model instance
    defines neither [__bool__] nor [__len__], so it is true. *)
Definition truthy (v : value) : bool :=
  match v with
  | VNone => false
  | VBool b => b
  | VInt z => negb (z =? 0)%Z
  | VFloat f => negb (PrimFloat.eqb f 0%float)
  | VStr s => negb (String.eqb s "")
  | VList l => match l with [] => false | _ :: _ => true end
  | VDict d => negb (bool_decide (d = ∅))
  | VMedicineOutput _ _ => true
  end.

(** [d.get(key, default)]. *)
Definition dict_get (d : gmap string value) (key : string) (default : value) : value :=
  match d !! key with
  | Some v => v
  | None => default
  end.

(** [str(x)], which is also what an f-string placeholder [{x}] inserts.
    Strings, booleans, [None] and integers are written out; the text of a
    float, a container or a model instance comes from the interpreter's
    [repr] machinery, taken as the parameter [str_other]. *)
Definition str (str_other : value -> string) (v : value) : string :=
  match v with
  | VStr s => s
  | VBool true => "True"
  | VBool false => "False"
  | VNone => "None"
  | VInt z => pretty z
  | _ => str_other v
  end.

(** *** String methods

    A [str] is a sequence of code points, held here as its UTF-8 bytes. *)

(** [str.isspace] on one code point: the 29 characters Python takes for
    whitespace. *)
Definition isspace (cp : N) : bool :=
  ((9 <=? cp) && (cp <=? 13) || (28 <=? cp) && (cp <=? 32)
   || (cp =? 133) || (cp =? 160) || (cp =? 5760)
   || (8192 <=? cp) && (cp <=? 8202)
   || (cp =? 8232) || (cp =? 8233) || (cp =? 8239) || (cp =? 8287)
   || (cp =? 12288))%N.

(** The same on a decoded character, if the bytes are one. *)
Definition space_at (o : option N) : bool :=
  match o with
  | Some cp => isspace cp
  | None => false
  end.

(** How many bytes the whitespace character at the front of [s] takes, or 0
    when [s] does not start with one. *)
Definition leading_space (s : string) : nat :=
  match s with
  | EmptyString => 0
  | String a r1 =>
      if space_at (Utf8.decode1 (N_of_ascii a)) then 1
      else match r1 with
           | EmptyString => 0
           | String b r2 =>
               if space_at (Utf8.decode2 (N_of_ascii a) (N_of_ascii b)) then 2
               else match r2 with
                    | EmptyString => 0
                    | String c _ =>
                        if space_at (Utf8.decode3 (N_of_ascii a) (N_of_ascii b)
                                       (N_of_ascii c))
                        then 3 else 0
                    end
           end
  end.

(** [s] without the whitespace character at its front, if there is one. *)
Definition skip_space (s : string) : option string :=
  match leading_space s, s with
  | 1, String _ r => Some r
  | 2, String _ (String _ r) => Some r
  | 3, String _ (String _ (String _ r)) => Some r
  | _, _ => None
  end.

(** [s.lstrip()] *)
Fixpoint lstrip (s : string) : string :=
  match leading_space s, s with
  | 1, String _ r => lstrip r
  | 2, String _ (String _ r) => lstrip r
  | 3, String _ (String _ (String _ r)) => lstrip r
  | _, _ => s
  end.

(** [s.rstrip()]: the longest end of [s] made of whitespace is dropped (such
    an end starts at a character, since no whitespace character starts with
    a continuation byte). *)
Fixpoint rstrip (s : string) : string :=
  match s with
  | EmptyString => EmptyString
  | String a r =>
      if String.eqb (lstrip s) EmptyString then EmptyString
      else String a (rstrip r)
  end.

(** [s.strip()] *)
Definition strip (s : string) : string := rstrip (lstrip s).

(** [s.lower()].  ASCII letters are lowered.  Other code points are left as
    they are: Python maps them to code points outside ASCII, except U+212A
    (to k) and U+0130 (to i followed by U+0307), so the comparison with
    [exit] and [quit] at line 191, the only use of [lower], comes out the
    same. *)
Definition lower_char (c : ascii) : ascii :=
  let n := N_of_ascii c in
  if ((65 <=? n) && (n <=? 90))%N then ascii_of_N (n + 32) else c.

Fixpoint lower (s : string) : string :=
  match s with
  | EmptyString => EmptyString
  | String c s' => String (lower_char c) (lower s')
  end.

(** [x in (a, b, ...)] on strings. *)
Definition in_tuple (x : string) (t : list string) : bool :=
  existsb (String.eqb x) t.

End Py.

(** ** Local context classes (lines 44-63) *)

Record BankAccount := {
  account_number : Py.value;
  customer_name : Py.value;
  account_balance : Py.value;
  account_type : Py.value }.

Record StudentProfile := {
  student_id : Py.value;
  student_name : Py.value;
  current_semester : Py.value;
  total_courses : Py.value }.

Record LibraryBook := {
  book_id : Py.value;
  book_title : Py.value;
  author_name : Py.value;
  is_available : Py.value }.

(** ** Local context objects (lines 68-87) *)

Definition bank_account : BankAccount := {|
  account_number := Py.VStr "ACC-789456";
  customer_name := Py.VStr "Fatima Khan";
  account_balance := Py.VFloat 75500.50%float;
  account_type := Py.VStr "savings" |}.

Definition student : StudentProfile := {|
  student_id := Py.VStr "STU-456";
  student_name := Py.VStr "Hassan Ahmed";
  current_semester := Py.VInt 4;
  total_courses := Py.VInt 5 |}.

Definition library_book : LibraryBook := {|
  book_id := Py.VStr "BOOK-123";
  book_title := Py.VStr "Python Programming";
  author_name := Py.VStr "John Smith";
  is_available := Py.VBool true |}.

(** ** Effects: exceptions, events, the world *)

Inductive Exn : Type :=
| ValueError (msg : string)
| EOFError
| InputGuardrailTripwireTriggered
| ModelError (msg : string)        (* an opaque failure of a model invocation *)
| ModelBehaviorError (msg : string) (* the model named a handoff that is not offered *).

Inductive Result (A : Type) : Type :=
| Ok (a : A)
| Raise (e : Exn).
Arguments Ok {A} a.
Arguments Raise {A} e.

(** What the outside can observe, in order. *)
Inductive Event : Type :=
| EvStdout (text : string)
| EvStdin (line : string)
| EvModelCall (agent_name instructions input model_name : string).

(** The module-level context data once lines 68-148 have run. *)
Record Globals := {
  g_bank_account : BankAccount;
  g_student : StudentProfile;
  g_library_book : LibraryBook;
  g_local_context_text : string }.

Record World := {
  globals : option Globals;
  log : list Event }.

Definition M (A : Type) : Type := World -> Result A * World.

#[global] Instance M_ret : MRet M := fun A a w => (Ok a, w).

#[global] Instance M_bind : MBind M := fun A B k m w =>
  match m w with
  | (Ok a, w') => k a w'
  | (Raise e, w') => (Raise e, w')
  end.

Definition raise {A} (e : Exn) : M A := fun w => (Raise e, w).

(** The world after further observable events. *)
Definition extend (w : World) (evs : list Event) : World :=
  {| globals := globals w; log := log w ++ evs |}.

(** The world after one more observable event. *)
Definition observe (e : Event) (w : World) : World := extend w [e].

Definition emit (e : Event) : M unit := fun w => (Ok tt, observe e w).

(** [print(s)] *)
Definition print (s : string) : M unit := emit (EvStdout (s +:+ LF)).

(** [try: body except exn: handler] for one exception class. *)
Definition try_except {A} (body : M A) (catches : Exn -> bool) (handler : M A) : M A :=
  fun w => match body w with
           | (Ok a, w') => (Ok a, w')
           | (Raise e, w') => if catches e then handler w' else (Raise e, w')
           end.

Definition is_tripwire (e : Exn) : bool :=
  match e with InputGuardrailTripwireTriggered => true | _ => false end.

(** The exceptions a run of the external model can end in. *)
Definition is_invocation_failure (e : Exn) : bool :=
  match e with ModelError _ | ModelBehaviorError _ => true | _ => false end.

(** ** The agents SDK: agents, guardrail outputs, run results *)

Definition RunContext : Type := unit.

Record RunConfig := { model_name : string }.

Record RunResult := { final_output : Py.value }.

Record GuardrailFunctionOutput := {
  output_info : Py.value;
  tripwire_triggered : bool }.

(** An input guardrail receives the run context, the agent (here its name)
    and the input text. *)
Definition InputGuardrail : Type :=
  RunContext -> string -> string -> M GuardrailFunctionOutput.

Inductive Agent : Type := mkAgent {
  name : string;
  instructions : string;
  output_type : option string;
  handoffs : list Agent;
  input_guardrails : list InputGuardrail }.

(** What one invocation of the external model yields. *)
Inductive Response : Type :=
| RespFinal (output : Py.value)
| RespHandoff (target : string)
| RespError (msg : string).

(** Lines 36-39; the client and its credential stay outside the model. *)
Definition config : RunConfig := {| model_name := "gpt-4o-mini" |}.

(** ** Rendering of the local context (lines 130-148) *)

Definition render_context (str_other : Py.value -> string)
    (b : BankAccount) (s : StudentProfile) (l : LibraryBook) : string :=
  let f := Py.str str_other in
  "
Bank Account:
  Account Number: " +:+ f (account_number b) +:+ "
  Customer Name: " +:+ f (customer_name b) +:+ "
  Account Balance: " +:+ f (account_balance b) +:+ "
  Account Type: " +:+ f (account_type b) +:+ "

Student Profile:
  ID: " +:+ f (student_id s) +:+ "
  Name: " +:+ f (student_name s) +:+ "
  Semester: " +:+ f (current_semester s) +:+ "
  Total Courses: " +:+ f (total_courses s) +:+ "

Library Book:
  ID: " +:+ f (book_id l) +:+ "
  Title: " +:+ f (book_title l) +:+ "
  Author: " +:+ f (author_name l) +:+ "
  Available: " +:+ f (is_available l) +:+ "
".

(** Lines 150-158 and 160-166: the two prompts built around a context text. *)
Definition medicine_instructions (context_text : string) : string :=
  "
    You are a medicine expert. Answer user questions about medicine clearly and concisely.
    Also, you have access to the following local context data:
    " +:+ context_text +:+ "
    If the question is not about medicine, do not answer.
    ".

Definition triage_instructions (context_text : string) : string :=
  "
    You are a triage agent. Use the given local context:
    " +:+ context_text +:+ "
    Delegate the user's query to the correct agent. Use medicine_agent for medicine-related queries.
    ".

(** Lines 97-108. *)
Definition guardrail_agent : Agent := {|
  name := "Guardrail Agent";
  instructions := "
    You are a guardrail agent. Your job is to check if the user question is about medicine.
    Return:
    {
        " +:+ DQ +:+ "response" +:+ DQ +:+ ": " +:+ DQ +:+ "<short message>" +:+ DQ +:+ ",
        " +:+ DQ +:+ "isMedicineQuery" +:+ DQ +:+ ": true/false
    }
    ";
  output_type := Some "MedicineOutput";
  handoffs := [];
  input_guardrails := [] |}.

(** Line 182's text. *)
Definition block_notice : string :=
  LF +:+ "[Blocked] ❌ This question is not about medicine." +:+ LF.

(** Lines 115-120: how the guardrail reads the classifier's output. *)
Definition is_medicine (output : Py.value) : bool :=
  match output with
  | Py.VMedicineOutput _ isMedicineQuery => isMedicineQuery
  | Py.VDict d => Py.truthy (Py.dict_get d "isMedicineQuery" (Py.VBool false))
  | _ => false
  end.

(** The invocation of agent [a] on [input] under [config], as observed. *)
Definition call_of (a : Agent) (input : string) (run_config : RunConfig) : Event :=
  EvModelCall (name a) (instructions a) input (model_name run_config).

(** The agent of a handoff list that a handoff to [target] reaches. *)
Definition handoff_to (target : string) (hs : list Agent) : option Agent :=
  find (fun b => String.eqb (name b) target) hs.

(** Every event of [evs] is a model invocation on [q] under [cfg]. *)
Definition calls_on (q : string) (cfg : RunConfig) (evs : list Event) : Prop :=
  Forall (fun e => exists b, e = call_of b q cfg) evs.

Section Bot.

(** [str] of floats, containers and model instances (interpreter built-in). *)
Variable str_other : Py.value -> string.

(** The external model: its reply to the invocation that is the last event
    of the log, possibly depending on everything observed before. *)
Variable model : list Event -> Response.

Definition invoke_model : M Response := fun w => (Ok (model (log w)), w).

(** Modelled from the spec: the agent loop of the SDK's [Runner.run], which
    is not part of the repository.  One model invocation per agent; a final
    output ends the run, a handoff continues with the named agent of the
    [handoffs] list on the same input (§4.4), a failure of the invocation
    is raised (§6). *)
Fixpoint run_agent (a : Agent) (input : string) (run_config : RunConfig)
    {struct a} : M RunResult :=
  emit (call_of a input run_config) ;;
  reply ← invoke_model;
  match reply with
  | RespFinal v => mret {| final_output := v |}
  | RespError msg => raise (ModelError msg)
  | RespHandoff target =>
      (fix dispatch (hs : list Agent) : M RunResult :=
         match hs with
         | [] => raise (ModelBehaviorError target)
         | b :: hs' =>
             if String.eqb (name b) target
             then run_agent b input run_config
             else dispatch hs'
         end) (handoffs a)
  end.

(** Modelled from the spec: the input guardrails of the starting agent run
    first; a triggered tripwire is a terminating control event (§4.3). *)
Fixpoint run_input_guardrails (gs : list InputGuardrail) (ctx : RunContext)
    (agent_name input : string) : M unit :=
  match gs with
  | [] => mret tt
  | g :: gs' =>
      r ← g ctx agent_name input;
      if tripwire_triggered r
      then raise InputGuardrailTripwireTriggered
      else run_input_guardrails gs' ctx agent_name input
  end.

(** Modelled from the spec: [Runner.run(agent, input, run_config=...)],
    guardrail gate first, then the agent (§4.6, §5). *)
Definition Runner_run (a : Agent) (input : string) (run_config : RunConfig)
    : M RunResult :=
  run_input_guardrails (input_guardrails a) tt (name a) input ;;
  run_agent a input run_config.

(** Lines 111-125. *)
Definition medicine_guardrail : InputGuardrail :=
  fun ctx agent input_text =>
    result ← Runner_run guardrail_agent input_text config;
    let output := final_output result in
    mret {| output_info := output;
            tripwire_triggered := negb (is_medicine output) |}.

Definition local_context_text : string :=
  render_context str_other bank_account student library_book.

Definition medicine_agent : Agent := {|
  name := "Medicine Agent";
  instructions := medicine_instructions local_context_text;
  output_type := None;
  handoffs := [];
  input_guardrails := [] |}.

Definition triage_agent : Agent := {|
  name := "Triage Agent";
  instructions := triage_instructions local_context_text;
  output_type := None;
  handoffs := [medicine_agent];
  input_guardrails := [medicine_guardrail] |}.

(** [with trace(name): body]: an observability scope without effect on
    control flow or data. *)
Definition with_trace {A} (workflow_name : string) (body : M A) : M A := body.

(** Lines 174-182. *)
Definition run_query (user_query : string) : M unit :=
  with_trace "Guardrail Execution"
    (try_except
       (result ← Runner_run triage_agent user_query config;
        print (LF +:+ "--- Agent Answer ---") ;;
        print (Py.str str_other (final_output result)) ;;
        print ("--------------------" +:+ LF))
       is_tripwire
       (print block_notice)).

(** [loop.run_until_complete(coro)] *)
Definition run_until_complete {A} (coro : M A) : M A := coro.

Inductive LoopCtl : Type := Break | Continue.

(** Lines 190-195 once [input] has returned [line]. *)
Definition loop_body (line : string) : M LoopCtl :=
  let question := Py.strip line in
  if Py.in_tuple (Py.lower question) ["exit"; "quit"]
  then print "Goodbye!" ;; mret Break
  else if Py.truthy (Py.VStr question)
       then run_until_complete (run_query question) ;; mret Continue
       else mret Continue.

(** Lines 189-195: [input] writes the prompt and returns the next line of
    standard input, or raises [EOFError] when there is none. *)
Fixpoint main_loop (stdin : list string) : M unit :=
  emit (EvStdout "Your Question: ") ;;
  match stdin with
  | [] => raise EOFError
  | line :: rest =>
      emit (EvStdin line) ;;
      c ← loop_body line;
      match c with
      | Break => mret tt
      | Continue => main_loop rest
      end
  end.

(** Lines 184-195. *)
Definition main (stdin : list string) : M unit :=
  print "Medicine Query Bot (Guardrails + Local Context Enabled)" ;;
  print ("Type 'exit' to quit." +:+ LF) ;;
  main_loop stdin.

(** [os.getenv(name)] on an environment where the variable is [env]. *)
Definition os_getenv (env : option string) : Py.value :=
  match env with
  | Some s => Py.VStr s
  | None => Py.VNone
  end.

Definition module_globals : Globals := {|
  g_bank_account := bank_account;
  g_student := student;
  g_library_book := library_book;
  g_local_context_text := local_context_text |}.

(** The module body run as a script: lines 20-24, then the definitions,
    then [main()] (lines 197-198). *)
Definition program (env : option string) (stdin : list string)
    : Result unit * World :=
  let OPENAI_API_KEY := os_getenv env in
  if negb (Py.truthy OPENAI_API_KEY)
  then raise (ValueError "OPENAI_API_KEY not set in .env file.")
         {| globals := None; log := [] |}
  else main stdin {| globals := Some module_globals; log := [] |}.

End Bot.

(** ** What a query is seen to do *)

(** The invocation of the classifier on [q]. *)
Definition classifier_call (q : string) : Event :=
  call_of guardrail_agent q config.

(** Lines 178-180 as written to standard output. *)
Definition answer_events (str_other : Py.value -> string) (v : Py.value)
    : list Event :=
  [EvStdout ((LF +:+ "--- Agent Answer ---") +:+ LF);
   EvStdout (Py.str str_other v +:+ LF);
   EvStdout (("--------------------" +:+ LF) +:+ LF)].

(** Line 182 as written to standard output. *)
Definition block_event : Event := EvStdout (block_notice +:+ LF).

(** Line 190: the prompt written and the line read. *)
Definition prompt_events (line : string) : list Event :=
  [EvStdout "Your Question: "; EvStdin line].

(** ** Notions of the specification, in its own words *)

Module Spec.

(** §3: a well-formed ClassificationResult carries a boolean [isRelevant]:
    the structured type, or a mapping whose [isMedicineQuery] is a boolean.
    Anything else is malformed or missing. *)
Definition classification (output : Py.value) : option bool :=
  match output with
  | Py.VMedicineOutput _ b => Some b
  | Py.VDict d =>
      match d !! "isMedicineQuery" with
      | Some (Py.VBool b) => Some b
      | _ => None
      end
  | _ => None
  end.

(** §4.2: the normalisation as the specification words it; absent or
    wrongly typed fields and all other shapes give [false]. *)
Definition isRelevant (output : Py.value) : bool :=
  default false (classification output).

(** §3: [allowed] of a guardrail verdict. *)
Definition allowed (g : GuardrailFunctionOutput) : bool :=
  negb (tripwire_triggered g).

(** The upper-case form of an ASCII letter. *)
Definition upper_char (c : ascii) : ascii :=
  let n := N_of_ascii c in
  if ((97 <=? n) && (n <=? 122))%N then ascii_of_N (n - 32) else c.

(** All spellings of a lower-case word in any letter case. *)
Fixpoint case_variants (word : string) : list string :=
  match word with
  | EmptyString => [EmptyString]
  | String c word' =>
      flat_map (fun r => [String c r; String (upper_char c) r])
               (case_variants word')
  end.

(** §6: the tokens that end the loop. *)
Definition exit_tokens : list string :=
  case_variants "exit" ++ case_variants "quit".

(** A string from its bytes. *)
Definition bytes (l : list nat) : string :=
  fold_right (fun n s => String (ascii_of_nat n) s) EmptyString l.

(** The whitespace characters of Python, in UTF-8: U+0009 to U+000D, U+001C
    to U+0020, U+0085, U+00A0, U+1680, U+2000 to U+200A, U+2028, U+2029,
    U+202F, U+205F and U+3000. *)
Definition whitespace : list string :=
  map bytes
    [[9]; [10]; [11]; [12]; [13]; [28]; [29]; [30]; [31]; [32];
     [194; 133]; [194; 160]; [225; 154; 128];
     [226; 128; 128]; [226; 128; 129]; [226; 128; 130]; [226; 128; 131];
     [226; 128; 132]; [226; 128; 133]; [226; 128; 134]; [226; 128; 135];
     [226; 128; 136]; [226; 128; 137]; [226; 128; 138];
     [226; 128; 168]; [226; 128; 169]; [226; 128; 175];
     [226; 129; 159]; [227; 128; 128]].

(** The length of the whitespace character [s] starts with, or 0. *)
Definition leading_space (s : string) : nat :=
  match find (fun w => String.prefix w s) whitespace with
  | Some w => String.length w
  | None => 0
  end.

(** Empty or whitespace-only: a sequence of whitespace characters. *)
Fixpoint blank (s : string) : bool :=
  match s with
  | EmptyString => true
  | String _ r1 =>
      match leading_space s, r1 with
      | 1, _ => blank r1
      | 2, String _ r2 => blank r2
      | 3, String _ (String _ r3) => blank r3
      | _, _ => false
      end
  end.

(** [text] starts, or ends, with a whitespace character. *)
Definition starts_with_space (text : string) : Prop :=
  exists w r, w ∈ whitespace /\ text = w +:+ r.

Definition ends_with_space (text : string) : Prop :=
  exists r w, w ∈ whitespace /\ text = r +:+ w.

Definition trimmed (text : string) : Prop :=
  ~ starts_with_space text /\ ~ ends_with_space text.

(** §6: a line that holds an exit token, and whitespace around it at most. *)
Definition exit_line (line : string) : Prop :=
  exists p tok p',
    line = p +:+ tok +:+ p'
    /\ blank p = true /\ blank p' = true /\ tok ∈ exit_tokens.

(** [q] is [line] without the whitespace at its two ends. *)
Definition stripped (line q : string) : Prop :=
  exists p p',
    line = p +:+ q +:+ p'
    /\ blank p = true /\ blank p' = true /\ trimmed q.

(** [needle] occurs verbatim in [text]. *)
Definition occurs_in (needle text : string) : Prop :=
  exists before after, text = before +:+ needle +:+ after.

(** Every field of every context record, in rendering order. *)
Definition record_fields (b : BankAccount) (s : StudentProfile)
    (l : LibraryBook) : list Py.value :=
  [account_number b; customer_name b; account_balance b; account_type b;
   student_id s; student_name s; current_semester s; total_courses s;
   book_id l; book_title l; author_name l; is_available l].

(** The texts written to standard output among some events. *)
Definition stdout_of (evs : list Event) : list string :=
  omap (fun e => match e with EvStdout t => Some t | _ => None end) evs.

(** The inputs handed to the model among some events. *)
Definition model_inputs (evs : list Event) : list string :=
  omap (fun e => match e with EvModelCall _ _ i _ => Some i | _ => None end) evs.

(** The agents invoked among some events, by name. *)
Definition invoked (evs : list Event) : list string :=
  omap (fun e => match e with EvModelCall a _ _ _ => Some a | _ => None end) evs.

End Spec.

(** ** Sample collaborators, used to run the program on concrete inputs *)

Module Sample.

Definition str_other (v : Py.value) : string :=
  match v with
  | Py.VFloat _ => "75500.5"
  | _ => "<object>"
  end.

Definition last_call (l : list Event) : option (string * string) :=
  match last l with
  | Some (EvModelCall a _ i _) => Some (a, i)
  | _ => None
  end.

(** Every invocation fails. *)
Definition failing_model (l : list Event) : Response := RespError "timeout".

(** The classifier finds nothing relevant. *)
Definition refusing_model (l : list Event) : Response :=
  RespFinal (Py.VMedicineOutput "Not a medicine question." false).

(** The classifier answers with a mapping whose field is a string. *)
Definition sloppy_model (l : list Event) : Response :=
  match last_call l with
  | Some ("Guardrail Agent", _) =>
      RespFinal (Py.VDict {[ "isMedicineQuery" := Py.VStr "no" ]})
  | _ => RespFinal (Py.VStr "Your balance is 75500.5.")
  end.

(** Classifier says yes, triage hands off, the specialist answers. *)
Definition helpful_model (l : list Event) : Response :=
  match last_call l with
  | Some ("Guardrail Agent", _) => RespFinal (Py.VMedicineOutput "ok" true)
  | Some ("Triage Agent", _) => RespHandoff "Medicine Agent"
  | Some ("Medicine Agent", _) => RespFinal (Py.VStr "Rest and fluids.")
  | _ => RespError "unknown agent"
  end.

(** A fresh world, and one with a past. *)
Definition w0 : World := {| globals := None; log := [] |}.

Definition w1 : World :=
  {| globals := None; log := [EvStdout "earlier output"; EvStdin "earlier"] |}.

End Sample.

(** ** Further notions for the properties of the loop *)

Module Loop.

(** The lines read from standard input among some events. *)
Definition stdin_of (evs : list Event) : list string :=
  omap (fun e => match e with EvStdin l => Some l | _ => None end) evs.

(** Line 190's prompt and line 192's farewell as written. *)
Definition prompt_event : Event := EvStdout "Your Question: ".

Definition goodbye_event : Event := EvStdout ("Goodbye!" +:+ LF).

(** The names of the three agents in the order a query can reach them. *)
Definition agent_order : list string :=
  ["Guardrail Agent"; "Triage Agent"; "Medicine Agent"].

End Loop.

(** * Properties *)

(** ** Worlds *)

Lemma extend_extend w evs1 evs2 :
  extend (extend w evs1) evs2 = extend w (evs1 ++ evs2).
Proof. unfold extend; simpl. by rewrite app_assoc. Qed.

(** ** The guardrail's reading of the classifier output *)

(** C2 fails as stated: a mapping whose [isMedicineQuery] is the string
    ["no"] (a wrongly typed field) is read as a medicine query, where the
    specification's normalisation gives [false]. *)
Lemma C2_wrong_type_not_false :
  is_medicine (Py.VDict {[ "isMedicineQuery" := Py.VStr "no" ]}) = true
  /\ Spec.isRelevant (Py.VDict {[ "isMedicineQuery" := Py.VStr "no" ]}) = false.
Proof. split; reflexivity. Qed.

(** C2, amended: a [MedicineOutput] gives its [isMedicineQuery] field; a
    mapping gives the Python truth value of what it holds under
    ["isMedicineQuery"] (a boolean as it is, [false] when the key is absent or
    the value is falsy, [true] for any other value); every other shape gives
    [false].  On well-formed outputs this is the specification's
    [isRelevant]. *)
Theorem is_medicine_normalization :
  (forall r b, is_medicine (Py.VMedicineOutput r b) = b)
  /\ (forall (d : gmap string Py.value) v,
        is_medicine (Py.VDict (<["isMedicineQuery" := v]> d)) = Py.truthy v)
  /\ (forall (d : gmap string Py.value) b,
        is_medicine (Py.VDict (<["isMedicineQuery" := Py.VBool b]> d)) = b)
  /\ (forall d : gmap string Py.value,
        is_medicine (Py.VDict (delete "isMedicineQuery" d)) = false)
  /\ is_medicine Py.VNone = false
  /\ (forall b, is_medicine (Py.VBool b) = false)
  /\ (forall z, is_medicine (Py.VInt z) = false)
  /\ (forall f, is_medicine (Py.VFloat f) = false)
  /\ (forall s, is_medicine (Py.VStr s) = false)
  /\ (forall l, is_medicine (Py.VList l) = false)
  /\ (forall output,
        is_medicine output =
        match Spec.classification output with
        | Some b => b
        | None =>
            match output with
            | Py.VDict d =>
                match d !! "isMedicineQuery" with
                | Some v => Py.truthy v
                | None => false
                end
            | _ => false
            end
        end).
Proof.
  repeat split; try reflexivity.
  - intros d v. unfold is_medicine, Py.dict_get. by rewrite lookup_insert_eq.
  - intros d b. unfold is_medicine, Py.dict_get. by rewrite lookup_insert_eq.
  - intros d. unfold is_medicine, Py.dict_get. by rewrite lookup_delete_eq.
  - intros [ | | | | | | d | r b]; try reflexivity.
    unfold is_medicine, Spec.classification, Py.dict_get.
    destruct (d !! "isMedicineQuery") as [[ ]|]; reflexivity.
Qed.

(** ** The runner *)

Lemma Agent_handoffs_ind (P : Agent -> Prop) :
  (forall a, Forall P (handoffs a) -> P a) -> forall a, P a.
Proof.
  intros step. fix IH 1. intros [n i o hs gs]. apply step. simpl.
  induction hs as [|b hs IHhs]; constructor; [apply IH | exact IHhs].
Qed.

Section Runner_facts.

Variable str_other : Py.value -> string.
Variable model : list Event -> Response.

Lemma run_agent_unfold a q cfg w :
  run_agent model a q cfg w =
  let w1 := observe (call_of a q cfg) w in
  match model (log w1) with
  | RespFinal v => (Ok {| final_output := v |}, w1)
  | RespError msg => (Raise (ModelError msg), w1)
  | RespHandoff t =>
      match handoff_to t (handoffs a) with
      | Some b => run_agent model b q cfg w1
      | None => (Raise (ModelBehaviorError t), w1)
      end
  end.
Proof.
  destruct a as [n i o hs gs]; cbn -[call_of].
  unfold mbind, M_bind, emit, invoke_model; cbn -[call_of].
  destruct (model _) as [v|t|msg]; try reflexivity.
  unfold handoff_to.
  induction hs as [|b hs IH]; cbn -[call_of]; [reflexivity|].
  destruct (String.eqb (name b) t); [reflexivity | exact IH].
Qed.

(** A run of an agent only adds model invocations on its input, starting
    with the agent's own, and ends in a result or an invocation failure. *)
Lemma run_agent_spec a : forall q cfg w,
  exists evs,
    snd (run_agent model a q cfg w) = extend w (call_of a q cfg :: evs)
    /\ calls_on q cfg evs
    /\ forall e, fst (run_agent model a q cfg w) = Raise e ->
                 is_invocation_failure e = true.
Proof.
  induction a as [a IH] using Agent_handoffs_ind. intros q cfg w.
  rewrite run_agent_unfold. cbv zeta.
  destruct (model _) as [v|t|msg].
  - exists []. repeat split; [constructor | discriminate].
  - unfold handoff_to.
    destruct (find _ (handoffs a)) as [b|] eqn:Hfind.
    + apply find_some in Hfind as [Hin _].
      rewrite Forall_forall in IH.
      apply list_elem_of_In in Hin.
      destruct (IH b Hin q cfg (observe (call_of a q cfg) w))
        as (evs & Hw & Hcalls & Hexn).
      exists (call_of b q cfg :: evs). rewrite Hw. repeat split.
      * unfold observe. rewrite extend_extend. reflexivity.
      * constructor; [by exists b | exact Hcalls].
      * exact Hexn.
    + exists []. repeat split; [constructor|].
      intros e [= <-]. reflexivity.
  - exists []. repeat split; [constructor|].
    intros e [= <-]. reflexivity.
Qed.

End Runner_facts.

(** ** The guardrail, the pipeline of one query, the loop *)

Section Pipeline_facts.

Variable str_other : Py.value -> string.
Variable model : list Event -> Response.

Local Abbreviation gcall := classifier_call.
Local Abbreviation triage := (triage_agent str_other model).

Lemma medicine_guardrail_run ctx ag q w :
  medicine_guardrail model ctx ag q w =
  let w1 := observe (gcall q) w in
  match model (log w1) with
  | RespFinal v =>
      (Ok {| output_info := v; tripwire_triggered := negb (is_medicine v) |}, w1)
  | RespHandoff t => (Raise (ModelBehaviorError t), w1)
  | RespError msg => (Raise (ModelError msg), w1)
  end.
Proof.
  unfold medicine_guardrail, Runner_run, mbind, M_bind.
  cbn [input_guardrails guardrail_agent run_input_guardrails mret M_ret].
  rewrite run_agent_unfold. cbv zeta.
  destruct (model _); reflexivity.
Qed.

Lemma Runner_run_triage q w :
  Runner_run model triage q config w =
  let w1 := observe (gcall q) w in
  match model (log w1) with
  | RespFinal v =>
      if is_medicine v
      then run_agent model triage q config w1
      else (Raise InputGuardrailTripwireTriggered, w1)
  | RespHandoff t => (Raise (ModelBehaviorError t), w1)
  | RespError msg => (Raise (ModelError msg), w1)
  end.
Proof.
  unfold Runner_run, mbind, M_bind.
  cbn [input_guardrails triage_agent run_input_guardrails].
  unfold mbind, M_bind. rewrite medicine_guardrail_run. cbv zeta.
  destruct (model _) as [v| |]; try reflexivity.
  cbn [tripwire_triggered]. destruct (is_medicine v); reflexivity.
Qed.

Lemma run_query_unfold q w :
  run_query str_other model q w =
  match Runner_run model triage q config w with
  | (Ok r, w') => (Ok tt, extend w' (answer_events str_other (final_output r)))
  | (Raise e, w') =>
      if is_tripwire e
      then (Ok tt, observe block_event w')
      else (Raise e, w')
  end.
Proof.
  unfold run_query, with_trace, try_except, mbind, M_bind.
  destruct (Runner_run _ _ _ _ _) as [[r|e] w']; [|reflexivity].
  unfold print, emit, observe. rewrite !extend_extend. reflexivity.
Qed.

End Pipeline_facts.

(** ** Strings: letter case and whitespace *)

Section String_facts.

Lemma lower_char_cases c :
  c = Py.lower_char c \/ c = Spec.upper_char (Py.lower_char c).
Proof.
  destruct c as [[] [] [] [] [] [] [] []]; vm_compute; auto.
Qed.

Lemma lower_upper_char c :
  Py.lower_char c = c -> Py.lower_char (Spec.upper_char c) = c.
Proof.
  destruct c as [[] [] [] [] [] [] [] []]; vm_compute; congruence.
Qed.

Lemma lower_char_inv c t :
  Py.lower_char t = t ->
  Py.lower_char c = t <-> c = t \/ c = Spec.upper_char t.
Proof.
  intros Ht. split.
  - intros <-. apply lower_char_cases.
  - intros [-> | ->]; [exact Ht | by apply lower_upper_char].
Qed.

(** [s.lower() == word] exactly for the spellings of [word] in any case. *)
Lemma lower_eq_case_variants word :
  Py.lower word = word ->
  forall s, Py.lower s = word <-> s ∈ Spec.case_variants word.
Proof.
  induction word as [|t word IH]; intros Hword s.
  - destruct s; simpl; split.
    + intros _. apply list_elem_of_In. by left.
    + reflexivity.
    + discriminate.
    + intros Hin. apply list_elem_of_In in Hin as [Hin | []]. discriminate.
  - simpl in Hword. injection Hword as Ht Hw.
    rewrite list_elem_of_In. cbn [Spec.case_variants].
    rewrite in_flat_map. split.
    + destruct s as [|c s]; [discriminate|]. simpl. intros [= Hc Hs].
      exists s. split.
      * apply list_elem_of_In, IH; assumption.
      * apply lower_char_inv in Hc as [-> | ->]; simpl; auto.
    + intros (r & Hr & Hs). apply list_elem_of_In, IH in Hr; [|assumption].
      destruct Hs as [<- | [<- | []]]; simpl; rewrite Hr; f_equal.
      * exact Ht.
      * by apply lower_upper_char.
Qed.

(** The test of line 191 recognises exactly the exit tokens. *)
Lemma exit_test_spec s :
  Py.in_tuple (Py.lower s) ["exit"; "quit"] = bool_decide (s ∈ Spec.exit_tokens).
Proof.
  unfold Py.in_tuple, Spec.exit_tokens. simpl existsb. rewrite orb_false_r.
  destruct (bool_decide_reflect (s ∈ Spec.case_variants "exit" ++ Spec.case_variants "quit"))
    as [Hin | Hnin].
  - apply elem_of_app in Hin as [Hin | Hin];
      apply lower_eq_case_variants in Hin; try reflexivity; rewrite Hin; reflexivity.
  - apply orb_false_iff. split; apply String.eqb_neq; intros Heq;
      apply Hnin, elem_of_app; [left | right];
      apply lower_eq_case_variants; auto.
Qed.

Lemma str_app_nil_l (s : string) : "" +:+ s = s.
Proof. reflexivity. Qed.

Lemma str_app_cons (c : ascii) (a b : string) :
  String c a +:+ b = String c (a +:+ b).
Proof. reflexivity. Qed.

Lemma str_app_assoc (a b c : string) : (a +:+ b) +:+ c = a +:+ (b +:+ c).
Proof.
  induction a as [|x a IH]; [reflexivity|].
  change (String x ((a +:+ b) +:+ c) = String x (a +:+ (b +:+ c))).
  by rewrite IH.
Qed.

Lemma str_app_nil_r (s : string) : s +:+ "" = s.
Proof.
  induction s as [|x s IH]; [reflexivity|]. rewrite str_app_cons. by rewrite IH.
Qed.

Lemma string_length_ind (P : string -> Prop) :
  (forall s, (forall r, String.length r < String.length s -> P r) -> P s) ->
  forall s, P s.
Proof.
  intros step s. remember (String.length s) as n eqn:Hn.
  revert s Hn. induction n as [n IH] using lt_wf_ind.
  intros s ->. apply step. intros r Hr. by apply (IH (String.length r)).
Qed.

Lemma str_prefix_app w s : String.prefix w s = true <-> exists r, s = w +:+ r.
Proof.
  revert s. induction w as [|a w IH]; intros s.
  - split; [intros _; by exists s | intros _; by destruct s].
  - destruct s as [|b s]; simpl.
    + split; [discriminate | intros [r Hr]; discriminate].
    + destruct (Ascii.ascii_dec a b) as [->|Hne].
      * rewrite IH. split; intros [r Hr]; exists r.
        -- rewrite str_app_cons. by rewrite Hr.
        -- rewrite str_app_cons in Hr. by injection Hr.
      * split; [discriminate|]. intros [r Hr]. rewrite str_app_cons in Hr.
        injection Hr as -> _. by destruct Hne.
Qed.

(** ** The whitespace of [strip] is the specification's *)

Lemma space1_spec a :
  Py.space_at (Utf8.decode1 (N_of_ascii a))
  = bool_decide (String a "" ∈ Spec.whitespace).
Proof.
  destruct a as [[] [] [] [] [] [] [] []]; vm_compute; reflexivity.
Qed.

Lemma isspace_cases cp :
  Py.isspace cp = true ->
  (9 <= cp <= 13 \/ 28 <= cp <= 32 \/ cp = 133 \/ cp = 160 \/ cp = 5760
   \/ 8192 <= cp <= 8202 \/ cp = 8232 \/ cp = 8233 \/ cp = 8239 \/ cp = 8287
   \/ cp = 12288)%N.
Proof.
  unfold Py.isspace.
  rewrite !orb_true_iff, !andb_true_iff, !N.leb_le, !N.eqb_eq. tauto.
Qed.

Lemma N_of_ascii_inj_val a n : N_of_ascii a = n -> a = ascii_of_N n.
Proof. intros <-. by rewrite ascii_N_embedding. Qed.

Lemma space2_lead a b :
  Py.space_at (Utf8.decode2 (N_of_ascii a) (N_of_ascii b)) = true ->
  a = ascii_of_N 194.
Proof.
  unfold Utf8.decode2, Utf8.continuation.
  destruct (_ && _) eqn:Hc; [|discriminate]. cbn [Py.space_at].
  rewrite !andb_true_iff, !N.leb_le, !N.ltb_lt in Hc.
  intros Hs%isspace_cases. apply N_of_ascii_inj_val. lia.
Qed.

Lemma space2_spec a b :
  Py.space_at (Utf8.decode2 (N_of_ascii a) (N_of_ascii b))
  = bool_decide (String a (String b "") ∈ Spec.whitespace).
Proof.
  destruct (Py.space_at _) eqn:E.
  - pose proof (space2_lead _ _ E) as ->. revert E.
    destruct b as [[] [] [] [] [] [] [] []]; vm_compute; congruence.
  - symmetry. apply bool_decide_eq_false_2. intros Hin.
    apply list_elem_of_In in Hin. vm_compute in Hin.
    repeat (destruct Hin as [Hin | Hin];
            [try discriminate Hin; injection Hin as <- <-;
             vm_compute in E; discriminate E|]).
    destruct Hin.
Qed.

Lemma space3_lead a b c :
  Py.space_at (Utf8.decode3 (N_of_ascii a) (N_of_ascii b) (N_of_ascii c)) = true ->
  (a = ascii_of_N 225 /\ b = ascii_of_N 154)
  \/ (a = ascii_of_N 226 /\ b = ascii_of_N 128)
  \/ (a = ascii_of_N 226 /\ b = ascii_of_N 129)
  \/ (a = ascii_of_N 227 /\ b = ascii_of_N 128).
Proof.
  unfold Utf8.decode3, Utf8.continuation.
  destruct (_ && _) eqn:Hc; [|discriminate]. cbv zeta.
  destruct (2048 <=? _)%N eqn:Hmin; [|discriminate]. cbn [Py.space_at].
  rewrite !andb_true_iff, !N.leb_le, !N.ltb_lt in Hc. rewrite N.leb_le in Hmin.
  intros Hs%isspace_cases.
  assert ((N_of_ascii a = 225 /\ N_of_ascii b = 154)
          \/ (N_of_ascii a = 226 /\ N_of_ascii b = 128)
          \/ (N_of_ascii a = 226 /\ N_of_ascii b = 129)
          \/ (N_of_ascii a = 227 /\ N_of_ascii b = 128))%N as H by lia.
  destruct H as [[Ha Hb] | [[Ha Hb] | [[Ha Hb] | [Ha Hb]]]];
    apply N_of_ascii_inj_val in Ha, Hb; auto.
Qed.

Lemma space3_spec a b c :
  Py.space_at (Utf8.decode3 (N_of_ascii a) (N_of_ascii b) (N_of_ascii c))
  = bool_decide (String a (String b (String c "")) ∈ Spec.whitespace).
Proof.
  destruct (Py.space_at _) eqn:E.
  - destruct (space3_lead _ _ _ E) as [[-> ->] | [[-> ->] | [[-> ->] | [-> ->]]]];
      revert E; destruct c as [[] [] [] [] [] [] [] []]; vm_compute; congruence.
  - symmetry. apply bool_decide_eq_false_2. intros Hin.
    apply list_elem_of_In in Hin. vm_compute in Hin.
    repeat (destruct Hin as [Hin | Hin];
            [try discriminate Hin; injection Hin as <- <- <-;
             vm_compute in E; discriminate E|]).
    destruct Hin.
Qed.

(** A whitespace character at the front is found with its length. *)
Lemma leading_space_whitespace w r :
  w ∈ Spec.whitespace -> Py.leading_space (w +:+ r) = String.length w.
Proof.
  intros Hin. apply list_elem_of_In in Hin. vm_compute in Hin.
  repeat (destruct Hin as [<- | Hin]; [reflexivity|]). destruct Hin.
Qed.

Lemma leading_space_found s k :
  Py.leading_space s = S k ->
  exists w r, w ∈ Spec.whitespace /\ s = w +:+ r /\ String.length w = S k.
Proof.
  destruct s as [|a r1]; [discriminate|]. cbn [Py.leading_space].
  rewrite space1_spec.
  destruct (bool_decide_reflect (String a "" ∈ Spec.whitespace)) as [H1|_].
  { intros [= <-]. by exists (String a ""), r1. }
  destruct r1 as [|b r2]; [discriminate|]. rewrite space2_spec.
  destruct (bool_decide_reflect (String a (String b "") ∈ Spec.whitespace)) as [H2|_].
  { intros [= <-]. by exists (String a (String b "")), r2. }
  destruct r2 as [|c r3]; [discriminate|]. rewrite space3_spec.
  destruct (bool_decide_reflect (String a (String b (String c "")) ∈ Spec.whitespace))
    as [H3|_]; [|discriminate].
  intros [= <-]. by exists (String a (String b (String c ""))), r3.
Qed.

Lemma leading_space_spec s : Spec.leading_space s = Py.leading_space s.
Proof.
  unfold Spec.leading_space.
  destruct (find _ Spec.whitespace) as [w|] eqn:Hfind.
  - apply find_some in Hfind as [Hin [r ->]%str_prefix_app].
    symmetry. by apply leading_space_whitespace, list_elem_of_In.
  - destruct (Py.leading_space s) as [|k] eqn:Hk; [reflexivity|].
    destruct (leading_space_found _ _ Hk) as (w & r & Hin & -> & _).
    apply list_elem_of_In in Hin.
    pose proof (find_none _ _ Hfind w Hin) as Hp. cbv beta in Hp.
    assert (String.prefix w (w +:+ r) = true) by (apply str_prefix_app; by exists r).
    congruence.
Qed.

(** ** [lstrip], [rstrip] and [blank] one character at a time *)

Lemma skip_space_spec s r :
  Py.skip_space s = Some r <-> exists w, w ∈ Spec.whitespace /\ s = w +:+ r.
Proof.
  split.
  - unfold Py.skip_space.
    destruct (Py.leading_space s) as [|k] eqn:Hk; [by destruct s|].
    destruct (leading_space_found _ _ Hk) as (w & r' & Hin & -> & Hlen).
    destruct k as [|[|[|k]]];
      destruct w as [|a [|b [|c [|d w]]]]; try discriminate Hlen;
      rewrite ?str_app_cons, ?str_app_nil_l; intros [= <-];
      eexists; (split; [exact Hin | reflexivity]).
  - intros (w & Hin & ->). unfold Py.skip_space.
    rewrite (leading_space_whitespace w r Hin).
    apply list_elem_of_In in Hin. vm_compute in Hin.
    repeat (destruct Hin as [<- | Hin]; [reflexivity|]). destruct Hin.
Qed.

Lemma skip_space_length s r :
  Py.skip_space s = Some r -> String.length r < String.length s.
Proof.
  unfold Py.skip_space.
  destruct (Py.leading_space s) as [|[|[|[|k]]]];
    destruct s as [|a [|b [|c s]]]; try discriminate;
    intros [= <-]; simpl; lia.
Qed.

Lemma lstrip_unfold s :
  Py.lstrip s = match Py.skip_space s with
                | Some r => Py.lstrip r
                | None => s
                end.
Proof.
  unfold Py.skip_space.
  destruct s as [|a [|b [|c s]]]; cbn [Py.lstrip];
    destruct (Py.leading_space _) as [|[|[|[|k]]]]; reflexivity.
Qed.

Lemma blank_step a r1 :
  Spec.blank (String a r1)
  = match Spec.leading_space (String a r1), r1 with
    | 1, _ => Spec.blank r1
    | 2, String _ r2 => Spec.blank r2
    | 3, String _ (String _ r3) => Spec.blank r3
    | _, _ => false
    end.
Proof. reflexivity. Qed.

Lemma blank_unfold s :
  Spec.blank s = match s with
                 | EmptyString => true
                 | String _ _ =>
                     match Py.skip_space s with
                     | Some r => Spec.blank r
                     | None => false
                     end
                 end.
Proof.
  destruct s as [|a r1]; [reflexivity|].
  rewrite blank_step, leading_space_spec. unfold Py.skip_space.
  destruct (Py.leading_space _) as [|[|[|[|k]]]];
    destruct r1 as [|b [|c s]]; reflexivity.
Qed.

Lemma skip_space_first s r :
  Py.skip_space s = Some r ->
  exists b t, s = String b t /\ Utf8.continuation (N_of_ascii b) = false.
Proof.
  intros (w & Hin & ->)%skip_space_spec.
  apply list_elem_of_In in Hin. vm_compute in Hin.
  repeat (destruct Hin as [<- | Hin]; [eexists _, _; split; reflexivity|]).
  destruct Hin.
Qed.

Lemma skip_space_app s r x :
  Py.skip_space s = Some r -> Py.skip_space (s +:+ x) = Some (r +:+ x).
Proof.
  intros (w & Hin & ->)%skip_space_spec. apply skip_space_spec.
  exists w. split; [exact Hin | apply str_app_assoc].
Qed.

(** Whitespace appended to a text that does not start with whitespace
    cannot complete a whitespace character at its front. *)
Lemma skip_space_none_app s p :
  Py.skip_space s = None -> s <> "" -> Spec.blank p = true ->
  Py.skip_space (s +:+ p) = None.
Proof.
  intros Hs Hne Hp.
  destruct p as [|b p']; [by rewrite str_app_nil_r|].
  assert (Utf8.continuation (N_of_ascii b) = false) as Hb.
  { rewrite blank_unfold in Hp.
    destruct (Py.skip_space (String b p')) as [r|] eqn:Hskip; [|discriminate].
    destruct (skip_space_first _ _ Hskip) as (b' & t & [= <- <-] & Hb). exact Hb. }
  revert Hs. unfold Py.skip_space.
  destruct s as [|a1 [|a2 [|a3 s]]]; [done| | |];
    rewrite ?str_app_cons, ?str_app_nil_l; cbn [Py.leading_space].
  - destruct (Py.space_at (Utf8.decode1 _)); [discriminate|]. intros _.
    unfold Utf8.decode2, Utf8.decode3. rewrite Hb, !andb_false_r. cbn.
    by destruct p'.
  - destruct (Py.space_at (Utf8.decode1 _)); [discriminate|].
    destruct (Py.space_at (Utf8.decode2 _ _)); [discriminate|]. intros _.
    unfold Utf8.decode3. rewrite Hb, !andb_false_r. reflexivity.
  - destruct (Py.space_at (Utf8.decode1 _)); [discriminate|].
    destruct (Py.space_at (Utf8.decode2 _ _)); [discriminate|].
    destruct (Py.space_at (Utf8.decode3 _ _ _)); [discriminate|]. reflexivity.
Qed.

Lemma lstrip_blank_eq s : String.eqb (Py.lstrip s) "" = Spec.blank s.
Proof.
  induction s as [s IH] using string_length_ind.
  rewrite lstrip_unfold, blank_unfold.
  destruct (Py.skip_space s) as [r|] eqn:Hskip.
  - rewrite (IH r (skip_space_length _ _ Hskip)). by destruct s.
  - by destruct s.
Qed.

Lemma lstrip_blank s : Spec.blank s = true -> Py.lstrip s = "".
Proof. rewrite <- lstrip_blank_eq. apply String.eqb_eq. Qed.

Lemma lstrip_no_space s : Py.skip_space (Py.lstrip s) = None.
Proof.
  induction s as [s IH] using string_length_ind.
  rewrite lstrip_unfold.
  destruct (Py.skip_space s) as [r|] eqn:Hskip; [|exact Hskip].
  apply IH. by eapply skip_space_length.
Qed.

Lemma lstrip_idem s : Py.lstrip (Py.lstrip s) = Py.lstrip s.
Proof. rewrite (lstrip_unfold (Py.lstrip s)). by rewrite lstrip_no_space. Qed.

Lemma rstrip_eq_nil x : String.eqb (Py.rstrip x) "" = String.eqb (Py.lstrip x) "".
Proof.
  destruct x as [|a r]; [reflexivity|]. cbn [Py.rstrip].
  by destruct (String.eqb (Py.lstrip (String a r)) "").
Qed.

(** [line.strip()] is empty exactly for empty and whitespace-only lines. *)
Lemma strip_empty_blank line :
  String.eqb (Py.strip line) "" = Spec.blank line.
Proof.
  unfold Py.strip. by rewrite rstrip_eq_nil, lstrip_idem, lstrip_blank_eq.
Qed.

(** ** Padding *)

Lemma lstrip_app_blank p s : Spec.blank p = true -> Py.lstrip (p +:+ s) = Py.lstrip s.
Proof.
  induction p as [p IH] using string_length_ind. intros Hp.
  destruct p as [|a p']; [reflexivity|].
  rewrite blank_unfold in Hp.
  destruct (Py.skip_space (String a p')) as [r|] eqn:Hskip; [|discriminate].
  rewrite lstrip_unfold, (skip_space_app _ _ s Hskip).
  apply IH; [by eapply skip_space_length | exact Hp].
Qed.

Lemma blank_app_r x p : Spec.blank p = true -> Spec.blank (x +:+ p) = Spec.blank x.
Proof.
  intros Hp. induction x as [x IH] using string_length_ind.
  destruct x as [|a x']; [by rewrite str_app_nil_l|].
  rewrite (blank_unfold (String a x')), blank_unfold, str_app_cons.
  rewrite <- str_app_cons.
  destruct (Py.skip_space (String a x')) as [r|] eqn:Hskip.
  - rewrite (skip_space_app _ _ p Hskip).
    apply IH. by eapply skip_space_length.
  - by rewrite skip_space_none_app.
Qed.

Lemma lstrip_app_not_blank s p :
  Spec.blank s = false -> Spec.blank p = true ->
  Py.lstrip (s +:+ p) = Py.lstrip s +:+ p.
Proof.
  intros Hs Hp. induction s as [s IH] using string_length_ind.
  destruct s as [|a s']; [discriminate|].
  rewrite blank_unfold in Hs.
  rewrite (lstrip_unfold (String a s')), lstrip_unfold.
  destruct (Py.skip_space (String a s')) as [r|] eqn:Hskip.
  - rewrite (skip_space_app _ _ p Hskip).
    apply IH; [by eapply skip_space_length | exact Hs].
  - by rewrite skip_space_none_app.
Qed.

Lemma rstrip_blank p : Spec.blank p = true -> Py.rstrip p = "".
Proof.
  intros Hp. destruct p as [|a r]; [reflexivity|].
  cbn [Py.rstrip]. by rewrite lstrip_blank_eq, Hp.
Qed.

Lemma rstrip_app_blank s p : Spec.blank p = true -> Py.rstrip (s +:+ p) = Py.rstrip s.
Proof.
  intros Hp. induction s as [|c s IH].
  - rewrite str_app_nil_l. by apply rstrip_blank.
  - rewrite str_app_cons. cbn [Py.rstrip]. rewrite <- str_app_cons.
    rewrite !lstrip_blank_eq, blank_app_r by exact Hp. by rewrite IH.
Qed.

(** Whitespace around a line does not change what [strip] returns. *)
Lemma strip_pad p s p' :
  Spec.blank p = true -> Spec.blank p' = true ->
  Py.strip (p +:+ s +:+ p') = Py.strip s.
Proof.
  intros Hp Hp'. unfold Py.strip. rewrite lstrip_app_blank by exact Hp.
  destruct (Spec.blank s) eqn:Hs.
  - rewrite (lstrip_blank s Hs).
    rewrite lstrip_blank; [reflexivity|]. by rewrite blank_app_r.
  - rewrite lstrip_app_not_blank by assumption. by apply rstrip_app_blank.
Qed.

(** ** [strip] against the specification's whitespace *)

Lemma whitespace_nonempty w : w ∈ Spec.whitespace -> w <> "".
Proof.
  intros Hin ->. apply list_elem_of_In in Hin. vm_compute in Hin.
  repeat (destruct Hin as [Hin | Hin]; [discriminate Hin|]). destruct Hin.
Qed.

Lemma str_app_eq_nil (a b : string) : a +:+ b = "" -> a = "" /\ b = "".
Proof. destruct a; [by intros <- | discriminate]. Qed.

Lemma blank_whitespace_cons w r :
  w ∈ Spec.whitespace -> Spec.blank (w +:+ r) = Spec.blank r.
Proof.
  intros Hin. rewrite blank_unfold.
  assert (Py.skip_space (w +:+ r) = Some r) as ->
    by (apply skip_space_spec; by exists w).
  pose proof (whitespace_nonempty w Hin). by destruct w.
Qed.

Lemma lstrip_split s :
  exists p, s = p +:+ Py.lstrip s /\ Spec.blank p = true.
Proof.
  induction s as [s IH] using string_length_ind.
  rewrite lstrip_unfold.
  destruct (Py.skip_space s) as [r|] eqn:Hskip; [|by exists ""].
  destruct (IH r (skip_space_length _ _ Hskip)) as (p & Hr & Hp).
  apply skip_space_spec in Hskip as (w & Hin & ->).
  exists (w +:+ p). split.
  - rewrite str_app_assoc. by rewrite <- Hr.
  - by rewrite blank_whitespace_cons.
Qed.

Lemma lstrip_not_starts s : ~ Spec.starts_with_space (Py.lstrip s).
Proof.
  intros (w & r & Hin & Heq).
  assert (Py.skip_space (Py.lstrip s) = Some r) as Hskip
    by (apply skip_space_spec; by exists w).
  by rewrite lstrip_no_space in Hskip.
Qed.

Lemma blank_ends s :
  Spec.blank s = true -> s <> "" -> Spec.ends_with_space s.
Proof.
  induction s as [s IH] using string_length_ind. intros Hb Hne.
  rewrite blank_unfold in Hb. destruct s as [|a s']; [done|].
  destruct (Py.skip_space (String a s')) as [r|] eqn:Hskip; [|discriminate].
  pose proof (skip_space_length _ _ Hskip) as Hlen.
  apply skip_space_spec in Hskip as (w & Hin & Heq). rewrite Heq.
  destruct r as [|b r'].
  - exists "", w. split; [exact Hin|]. by rewrite str_app_nil_r.
  - destruct (IH (String b r') Hlen Hb) as (x & w' & Hin' & ->); [done|].
    exists (w +:+ x), w'. split; [exact Hin'|]. by rewrite str_app_assoc.
Qed.

Lemma rstrip_split x :
  exists p, x = Py.rstrip x +:+ p /\ Spec.blank p = true
            /\ ~ Spec.ends_with_space (Py.rstrip x).
Proof.
  induction x as [|a r IH].
  - exists "". split; [reflexivity|]. split; [reflexivity|].
    intros (y & w & Hin & Heq). symmetry in Heq.
    apply str_app_eq_nil in Heq as [_ ->]. by apply whitespace_nonempty in Hin.
  - cbn [Py.rstrip]. rewrite lstrip_blank_eq.
    destruct (Spec.blank (String a r)) eqn:Hb.
    + exists (String a r). split; [reflexivity|]. split; [exact Hb|].
      intros (y & w & Hin & Heq). symmetry in Heq.
      apply str_app_eq_nil in Heq as [_ ->]. by apply whitespace_nonempty in Hin.
    + destruct IH as (p & Hr & Hp & Hends). exists p.
      split; [rewrite str_app_cons; by rewrite <- Hr|]. split; [exact Hp|].
      intros (y & w & Hin & Heq). destruct y as [|b y].
      * rewrite str_app_nil_l in Heq.
        assert (Spec.blank (String a r) = true); [|congruence].
        rewrite Hr, <- str_app_cons, Heq.
        by rewrite blank_whitespace_cons.
      * rewrite str_app_cons in Heq. injection Heq as _ Heq.
        apply Hends. by exists y, w.
Qed.

Lemma rstrip_fixed q : ~ Spec.ends_with_space q -> Py.rstrip q = q.
Proof.
  induction q as [|a r IH]; [reflexivity|]. intros Hends.
  cbn [Py.rstrip]. rewrite lstrip_blank_eq.
  destruct (Spec.blank (String a r)) eqn:Hb.
  - destruct Hends. by apply blank_ends.
  - rewrite IH; [reflexivity|].
    intros (y & w & Hin & ->). apply Hends.
    exists (String a y), w. by rewrite str_app_cons.
Qed.

Lemma rstrip_not_starts x :
  ~ Spec.starts_with_space x -> ~ Spec.starts_with_space (Py.rstrip x).
Proof.
  intros Hx (w & r & Hin & Heq).
  destruct (rstrip_split x) as (p & Hsplit & _). apply Hx.
  exists w, (r +:+ p). split; [exact Hin|].
  by rewrite Hsplit, Heq, str_app_assoc.
Qed.

(** Every line is whitespace, then its stripped text, then whitespace, and
    the stripped text has no whitespace at either end. *)
Lemma strip_split line :
  exists p p',
    line = p +:+ Py.strip line +:+ p'
    /\ Spec.blank p = true /\ Spec.blank p' = true
    /\ Spec.trimmed (Py.strip line).
Proof.
  destruct (lstrip_split line) as (p & Hl & Hp).
  destruct (rstrip_split (Py.lstrip line)) as (p' & Hr & Hp' & Hends).
  exists p, p'. unfold Py.strip. split; [by rewrite <- Hr|].
  split; [exact Hp|]. split; [exact Hp'|]. split; [|exact Hends].
  apply rstrip_not_starts, lstrip_not_starts.
Qed.

Lemma strip_trimmed q : Spec.trimmed q -> Py.strip q = q.
Proof.
  intros [Hstart Hend]. unfold Py.strip.
  assert (Py.lstrip q = q) as ->; [|by apply rstrip_fixed].
  rewrite lstrip_unfold.
  destruct (Py.skip_space q) as [r|] eqn:Hskip; [|reflexivity].
  destruct Hstart. apply skip_space_spec in Hskip as (w & Hin & ->).
  by exists w, r.
Qed.

(** [strip] is the one way to take whitespace off both ends. *)
Lemma strip_unique p q p' :
  Spec.blank p = true -> Spec.blank p' = true -> Spec.trimmed q ->
  Py.strip (p +:+ q +:+ p') = q.
Proof.
  intros Hp Hp' Hq. rewrite strip_pad by assumption. by apply strip_trimmed.
Qed.

End String_facts.

(** ** Events of a run of agents *)

Lemma stdout_of_app evs1 evs2 :
  Spec.stdout_of (evs1 ++ evs2) = Spec.stdout_of evs1 ++ Spec.stdout_of evs2.
Proof. apply omap_app. Qed.

Lemma calls_on_stdout q cfg evs : calls_on q cfg evs -> Spec.stdout_of evs = [].
Proof.
  induction 1 as [|e evs [b ->] _ IH]; [reflexivity | exact IH].
Qed.

Lemma calls_on_inputs q cfg evs :
  calls_on q cfg evs -> Forall (eq q) (Spec.model_inputs evs).
Proof.
  induction 1 as [|e evs [b ->] _ IH]; [constructor|].
  cbn. constructor; [reflexivity | exact IH].
Qed.

Lemma calls_on_no_stdin q cfg evs line :
  calls_on q cfg evs -> EvStdin line ∉ evs.
Proof.
  intros Hc Hin. unfold calls_on in Hc. rewrite Forall_forall in Hc.
  destruct (Hc _ Hin) as [b Hb]. discriminate.
Qed.

(** ** The claims about one query *)

Section Query_claims.

Variable str_other : Py.value -> string.
Variable model : list Event -> Response.

Local Abbreviation triage := (triage_agent str_other model).

(** C3. When the classifier's output reads as not relevant
    ([is_medicine] is false), [run_query] returns normally after exactly one
    model invocation, the classifier's, and exactly one line written, the
    block notice: neither the triage agent nor the medicine agent is
    invoked. *)
Theorem blocked_query_short_circuits q w output :
  model (log (observe (classifier_call q) w)) = RespFinal output ->
  is_medicine output = false ->
  run_query str_other model q w
    = (Ok tt, extend w [classifier_call q; block_event])
  /\ Spec.invoked [classifier_call q; block_event] = ["Guardrail Agent"]
  /\ Spec.stdout_of [classifier_call q; block_event] = [block_notice +:+ LF].
Proof.
  intros Hreply Hno. repeat split.
  rewrite run_query_unfold, Runner_run_triage. cbv zeta.
  rewrite Hreply, Hno. cbn [is_tripwire].
  unfold observe. by rewrite extend_extend.
Qed.


End Query_claims.

(** ** The claims about the guardrail verdict and the loop *)

Section Loop_claims.

Variable str_other : Py.value -> string.
Variable model : list Event -> Response.

Local Abbreviation triage := (triage_agent str_other model).

(** C5, amended: on a classifier output, the verdict carries that output
    and [allowed] equals [isRelevant] whenever the output is well-formed;
    on a malformed or missing output [allowed] is false, except for a
    mapping whose ["isMedicineQuery"] holds a non-boolean value that
    Python's truth value testing takes for true, which is allowed. *)
Theorem guardrail_verdict ctx agent q w output :
  model (log (observe (classifier_call q) w)) = RespFinal output ->
  exists g,
    medicine_guardrail model ctx agent q w
      = (Ok g, observe (classifier_call q) w)
    /\ output_info g = output
    /\ Spec.allowed g =
       match Spec.classification output with
       | Some isRelevant => isRelevant
       | None =>
           match output with
           | Py.VDict d =>
               match d !! "isMedicineQuery" with
               | Some v => Py.truthy v
               | None => false
               end
           | _ => false
           end
       end.
Proof.
  intros Hreply. rewrite medicine_guardrail_run. cbv zeta. rewrite Hreply.
  eexists. split; [reflexivity|]. split; [reflexivity|].
  unfold Spec.allowed. cbn [tripwire_triggered]. rewrite negb_involutive.
  destruct output as [ | | | | | | d | r b]; try reflexivity.
  unfold is_medicine, Spec.classification, Py.dict_get.
  destruct (d !! "isMedicineQuery") as [[ ]|]; reflexivity.
Qed.

Lemma loop_body_unfold line w :
  loop_body str_other model line w =
  if bool_decide (Py.strip line ∈ Spec.exit_tokens)
  then (Ok Break, observe (EvStdout ("Goodbye!" +:+ LF)) w)
  else if Spec.blank line
       then (Ok Continue, w)
       else match run_query str_other model (Py.strip line) w with
            | (Ok _, w') => (Ok Continue, w')
            | (Raise e, w') => (Raise e, w')
            end.
Proof.
  unfold loop_body. rewrite exit_test_spec.
  destruct (bool_decide _); [reflexivity|].
  cbn [Py.truthy]. rewrite strip_empty_blank.
  destruct (Spec.blank line); [reflexivity|].
  unfold run_until_complete, mbind, M_bind. cbn [negb].
  destruct (run_query _ _ _ _) as [[[]|e] w']; reflexivity.
Qed.

Lemma main_loop_nil w :
  main_loop str_other model [] w
  = (Raise EOFError, observe (EvStdout "Your Question: ") w).
Proof. reflexivity. Qed.

Lemma main_loop_cons line rest w :
  main_loop str_other model (line :: rest) w =
  match loop_body str_other model line (extend w (prompt_events line)) with
  | (Ok Break, w') => (Ok tt, w')
  | (Ok Continue, w') => main_loop str_other model rest w'
  | (Raise e, w') => (Raise e, w')
  end.
Proof.
  cbn [main_loop]. unfold mbind, M_bind, emit, observe, prompt_events.
  rewrite extend_extend. cbn [app].
  destruct (loop_body _ _ _ _) as [[[]|e] w']; reflexivity.
Qed.

(** A failing invocation of an agent is raised where it happens. *)
Lemma failed_invocation_raises a q cfg w msg :
  model (log (observe (call_of a q cfg) w)) = RespError msg ->
  run_agent model a q cfg w
  = (Raise (ModelError msg), observe (call_of a q cfg) w).
Proof. intros H. rewrite run_agent_unfold. cbv zeta. by rewrite H. Qed.

(** What a run of the triage agent behind its guardrail can raise, and
    what it has added to the log by then. *)
Lemma Runner_run_triage_raises q w e w' :
  Runner_run model triage q config w = (Raise e, w') ->
  (e = InputGuardrailTripwireTriggered \/ is_invocation_failure e = true)
  /\ exists evs, w' = extend w (classifier_call q :: evs)
                 /\ calls_on q config evs.
Proof.
  rewrite Runner_run_triage. cbv zeta.
  destruct (model _) as [v|t|msg].
  - destruct (is_medicine v).
    + destruct (run_agent_spec model triage q config
                  (observe (classifier_call q) w)) as (evs & Hw & Hc & Hexn).
      intros Hrun. rewrite Hrun in Hw, Hexn. simpl in Hw, Hexn. subst w'.
      split; [right; by apply Hexn|].
      exists (call_of triage q config :: evs).
      unfold observe. rewrite extend_extend. split; [reflexivity|].
      constructor; [by exists triage | exact Hc].
    + intros [= <- <-]. split; [by left|]. exists []. split; [reflexivity | constructor].
  - intros [= <- <-]. split; [by right|]. exists []. split; [reflexivity | constructor].
  - intros [= <- <-]. split; [by right|]. exists []. split; [reflexivity | constructor].
Qed.

(** C1, amended: [run_query] catches the guardrail tripwire only.  When a
    model invocation made for a forwarded line fails, the error leaves
    [run_query] and the interactive loop uncaught, at the point of the
    failure: since the line was read, only model invocations on that query
    have happened, nothing has been written, and no further line is read. *)
Theorem invocation_failure_escapes line rest w e w' :
  Py.strip line ∉ Spec.exit_tokens ->
  Spec.blank line = false ->
  Runner_run model triage (Py.strip line) config (extend w (prompt_events line))
    = (Raise e, w') ->
  is_invocation_failure e = true ->
  run_query str_other model (Py.strip line) (extend w (prompt_events line))
    = (Raise e, w')
  /\ main_loop str_other model (line :: rest) w = (Raise e, w')
  /\ exists evs,
       w' = extend w (prompt_events line ++ evs)
       /\ calls_on (Py.strip line) config evs
       /\ Spec.stdout_of evs = []
       /\ forall next, EvStdin next ∉ evs.
Proof.
  intros Hexit Hblank Hrun Hfail.
  assert (run_query str_other model (Py.strip line) (extend w (prompt_events line))
          = (Raise e, w')) as Hquery.
  { rewrite run_query_unfold, Hrun. by destruct e. }
  split; [exact Hquery|]. split.
  - rewrite main_loop_cons, loop_body_unfold.
    rewrite bool_decide_eq_false_2 by exact Hexit.
    by rewrite Hblank, Hquery.
  - apply Runner_run_triage_raises in Hrun as (_ & evs & -> & Hcalls).
    assert (calls_on (Py.strip line) config (classifier_call (Py.strip line) :: evs))
      as Hall by (constructor; [by exists guardrail_agent | exact Hcalls]).
    exists (classifier_call (Py.strip line) :: evs).
    rewrite extend_extend. split; [reflexivity|]. split; [exact Hall|].
    split; [by eapply calls_on_stdout|].
    intros next. by eapply calls_on_no_stdin.
Qed.

End Loop_claims.

(** ** What one query adds to the world *)

Section Query_log.

Variable str_other : Py.value -> string.
Variable model : list Event -> Response.

Local Abbreviation triage := (triage_agent str_other model).

Lemma model_inputs_app evs1 evs2 :
  Spec.model_inputs (evs1 ++ evs2)
  = Spec.model_inputs evs1 ++ Spec.model_inputs evs2.
Proof. apply omap_app. Qed.

Lemma Runner_run_triage_log q w :
  exists evs,
    snd (Runner_run model triage q config w)
      = extend w (classifier_call q :: evs)
    /\ calls_on q config evs.
Proof.
  rewrite Runner_run_triage. cbv zeta.
  destruct (model _) as [v|t|msg];
    try (exists []; split; [reflexivity | constructor]).
  destruct (is_medicine v);
    [|exists []; split; [reflexivity | constructor]].
  destruct (run_agent_spec model triage q config
              (observe (classifier_call q) w)) as (evs & Hw & Hc & _).
  exists (call_of triage q config :: evs). rewrite Hw.
  unfold observe. rewrite extend_extend. split; [reflexivity|].
  constructor; [by exists triage | exact Hc].
Qed.

(** A query starts with the classifier's invocation, hands only its own text
    to the model, and leaves the globals alone. *)
Lemma run_query_log q w :
  exists evs,
    snd (run_query str_other model q w) = extend w (classifier_call q :: evs)
    /\ Forall (eq q) (Spec.model_inputs (classifier_call q :: evs)).
Proof.
  rewrite run_query_unfold.
  destruct (Runner_run_triage_log q w) as (evs & Hw & Hc).
  apply calls_on_inputs in Hc.
  destruct (Runner_run model triage q config w) as [[r|e] w'];
    simpl in Hw; subst w'.
  - exists (evs ++ answer_events str_other (final_output r)).
    rewrite extend_extend. split; [reflexivity|].
    change (classifier_call q :: evs ++ answer_events str_other (final_output r))
      with ((classifier_call q :: evs) ++ answer_events str_other (final_output r)).
    rewrite model_inputs_app. apply Forall_app. split; [|constructor].
    constructor; [reflexivity | exact Hc].
  - destruct (is_tripwire e).
    + exists (evs ++ [block_event]). unfold observe.
      rewrite extend_extend. split; [reflexivity|].
      change (classifier_call q :: evs ++ [block_event])
        with ((classifier_call q :: evs) ++ [block_event]).
      rewrite model_inputs_app. apply Forall_app. split; [|constructor].
      constructor; [reflexivity | exact Hc].
    + exists evs. split; [reflexivity|].
      constructor; [reflexivity | exact Hc].
Qed.

End Query_log.

(** ** The whole run *)

Section Program_claims.

Variable str_other : Py.value -> string.
Variable model : list Event -> Response.

Local Abbreviation triage := (triage_agent str_other model).

Lemma run_query_raises q w e :
  fst (run_query str_other model q w) = Raise e ->
  is_invocation_failure e = true.
Proof.
  rewrite run_query_unfold.
  destruct (Runner_run model triage q config w) as [[r|e'] w'] eqn:Hrun;
    [discriminate|].
  apply Runner_run_triage_raises in Hrun as [[-> | Hfail] _]; [discriminate|].
  destruct e'; try discriminate; by intros [= <-].
Qed.

Lemma run_query_globals q w :
  globals (snd (run_query str_other model q w)) = globals w.
Proof.
  destruct (run_query_log str_other model q w) as (evs & -> & _). reflexivity.
Qed.

Lemma main_loop_raises stdin : forall w e,
  fst (main_loop str_other model stdin w) = Raise e ->
  e = EOFError \/ is_invocation_failure e = true.
Proof.
  induction stdin as [|line rest IH]; intros w e.
  - rewrite main_loop_nil. intros [= <-]. by left.
  - rewrite main_loop_cons, loop_body_unfold.
    destruct (bool_decide _); [discriminate|].
    destruct (Spec.blank line); [apply IH|].
    destruct (run_query _ _ _ _) as [[[]|e'] w'] eqn:Hq; [apply IH|].
    intros [= <-]. right.
    apply (run_query_raises (Py.strip line) (extend w (prompt_events line))).
    by rewrite Hq.
Qed.

Lemma main_loop_globals stdin : forall w,
  globals (snd (main_loop str_other model stdin w)) = globals w.
Proof.
  induction stdin as [|line rest IH]; intros w; [reflexivity|].
  rewrite main_loop_cons, loop_body_unfold.
  destruct (bool_decide _); [reflexivity|].
  destruct (Spec.blank line); [by rewrite IH|].
  pose proof (run_query_globals (Py.strip line) (extend w (prompt_events line))) as Hg.
  destruct (run_query _ _ _ _) as [[[]|e'] w']; simpl in Hg.
  - by rewrite IH.
  - exact Hg.
Qed.

Lemma main_unfold stdin w :
  main str_other model stdin w =
  main_loop str_other model stdin
    (extend w [EvStdout ("Medicine Query Bot (Guardrails + Local Context Enabled)" +:+ LF);
               EvStdout (("Type 'exit' to quit." +:+ LF) +:+ LF)]).
Proof.
  unfold main, mbind, M_bind, print, emit, observe.
  by rewrite extend_extend.
Qed.

(** C7. Without the credential (unset, or set to the empty string) the
    module body raises [ValueError] before anything else happens: no global
    is built, nothing is written or read, no model is invoked.  With the
    credential, no run ever raises [ValueError]. *)
Theorem missing_credential_is_fatal_at_startup stdin :
  program str_other model None stdin
    = (Raise (ValueError "OPENAI_API_KEY not set in .env file."),
       {| globals := None; log := [] |})
  /\ program str_other model (Some "") stdin
     = (Raise (ValueError "OPENAI_API_KEY not set in .env file."),
        {| globals := None; log := [] |})
  /\ (forall c key msg,
        fst (program str_other model (Some (String c key)) stdin)
        <> Raise (ValueError msg)).
Proof.
  split; [reflexivity|]. split; [reflexivity|].
  intros c key msg. unfold program. cbn [os_getenv Py.truthy String.eqb negb].
  rewrite main_unfold. intros Hraise.
  apply main_loop_raises in Hraise as [? | ?]; discriminate.
Qed.

End Program_claims.

(** ** Independence from the past, and the context *)

Section Context_claims.

Variable str_other : Py.value -> string.
Variables model model' : list Event -> Response.

Lemma run_agent_indep a : forall q cfg w1 w2,
  (forall evs, model (log w1 ++ evs) = model' (log w2 ++ evs)) ->
  exists r evs,
    run_agent model a q cfg w1 = (r, extend w1 evs)
    /\ run_agent model' a q cfg w2 = (r, extend w2 evs).
Proof.
  induction a as [a IH] using Agent_handoffs_ind. intros q cfg w1 w2 Hsame.
  rewrite !run_agent_unfold. cbv zeta. cbn [log observe extend].
  rewrite <- (Hsame [call_of a q cfg]).
  destruct (model _) as [v|t|msg].
  - by exists (Ok {| final_output := v |}), [call_of a q cfg].
  - unfold handoff_to. destruct (find _ (handoffs a)) as [b|] eqn:Hfind.
    + apply find_some in Hfind as [Hin _]. apply list_elem_of_In in Hin.
      rewrite Forall_forall in IH.
      destruct (IH b Hin q cfg (observe (call_of a q cfg) w1)
                  (observe (call_of a q cfg) w2)) as (r & evs & H1 & H2).
      { intros evs. cbn [log observe extend]. rewrite <- !app_assoc. apply Hsame. }
      exists r, (call_of a q cfg :: evs). rewrite H1, H2.
      unfold observe. by rewrite !extend_extend.
    + by exists (Raise (ModelBehaviorError t)), [call_of a q cfg].
  - by exists (Raise (ModelError msg)), [call_of a q cfg].
Qed.

Lemma run_triage_indep q w1 w2 :
  (forall evs, model (log w1 ++ evs) = model' (log w2 ++ evs)) ->
  exists r evs,
    run_agent model (triage_agent str_other model) q config w1 = (r, extend w1 evs)
    /\ run_agent model' (triage_agent str_other model') q config w2 = (r, extend w2 evs).
Proof.
  intros Hsame. rewrite !run_agent_unfold. cbv zeta.
  change (call_of (triage_agent str_other model') q config)
    with (call_of (triage_agent str_other model) q config).
  set (e := call_of (triage_agent str_other model) q config).
  cbn [log observe extend]. rewrite <- (Hsame [e]).
  destruct (model _) as [v|t|msg].
  - by exists (Ok {| final_output := v |}), [e].
  - cbn [handoffs triage_agent handoff_to find].
    destruct (String.eqb _ t).
    + destruct (run_agent_indep (medicine_agent str_other) q config
                  (observe e w1) (observe e w2)) as (r & evs & H1 & H2).
      { intros evs. cbn [log observe extend]. rewrite <- !app_assoc. apply Hsame. }
      exists r, (e :: evs). rewrite H1, H2.
      unfold observe. by rewrite !extend_extend.
    + by exists (Raise (ModelBehaviorError t)), [e].
  - by exists (Raise (ModelError msg)), [e].
Qed.

Lemma run_query_indep q w1 w2 :
  (forall evs, model (log w1 ++ evs) = model' (log w2 ++ evs)) ->
  exists r evs,
    run_query str_other model q w1 = (r, extend w1 evs)
    /\ run_query str_other model' q w2 = (r, extend w2 evs).
Proof.
  intros Hsame. rewrite !run_query_unfold, !Runner_run_triage. cbv zeta.
  cbn [log observe extend]. rewrite <- (Hsame [classifier_call q]).
  destruct (model _) as [v|t|msg].
  - destruct (is_medicine v).
    + destruct (run_triage_indep q (observe (classifier_call q) w1)
                  (observe (classifier_call q) w2)) as (r & evs & H1 & H2).
      { intros evs. cbn [log observe extend]. rewrite <- !app_assoc. apply Hsame. }
      rewrite H1, H2. unfold observe. rewrite !extend_extend.
      destruct r as [r|e].
      * eexists _, _. rewrite !extend_extend. split; reflexivity.
      * destruct (is_tripwire e); eexists _, _; unfold observe;
          rewrite ?extend_extend; split; reflexivity.
    + cbn [is_tripwire]. eexists _, _. unfold observe.
      rewrite !extend_extend. split; reflexivity.
  - assert (is_tripwire (ModelBehaviorError t) = false) as -> by reflexivity.
    by eexists _, _.
  - assert (is_tripwire (ModelError msg) = false) as -> by reflexivity.
    by eexists _, _.
Qed.

(** C9. The context records and the rendered text are built when the
    module body runs and no operation changes them: a query leaves the
    globals as they were, and so does a whole run of the loop.  Nothing a
    query creates is kept for the next one: what [run_query] returns and
    adds to the log is the same from any two worlds, whatever happened in
    them before, as long as the model replies alike. *)
Theorem context_is_read_only_and_queries_are_independent :
  (forall q w, globals (snd (run_query str_other model q w)) = globals w)
  /\ (forall stdin w, globals (snd (main str_other model stdin w)) = globals w)
  /\ (forall c key stdin,
        globals (snd (program str_other model (Some (String c key)) stdin))
        = Some (module_globals str_other))
  /\ (forall q w1 w2,
        (forall evs, model (log w1 ++ evs) = model' (log w2 ++ evs)) ->
        exists r evs,
          run_query str_other model q w1 = (r, extend w1 evs)
          /\ run_query str_other model' q w2 = (r, extend w2 evs)).
Proof.
  split; [apply run_query_globals|]. split; [|split].
  - intros stdin w. by rewrite main_unfold, main_loop_globals.
  - intros c key stdin. unfold program.
    cbn [os_getenv Py.truthy String.eqb negb].
    by rewrite main_unfold, main_loop_globals.
  - apply run_query_indep.
Qed.

End Context_claims.

(** ** The rendered context *)

Lemma occurs_in_here x rest : Spec.occurs_in x (x +:+ rest).
Proof. by exists "", rest. Qed.

Lemma occurs_in_later a x text :
  Spec.occurs_in x text -> Spec.occurs_in x (a +:+ text).
Proof.
  intros (before & after & ->). exists (a +:+ before), after.
  by rewrite str_app_assoc.
Qed.

Lemma occurs_in_before x text c :
  Spec.occurs_in x text -> Spec.occurs_in x (text +:+ c).
Proof.
  intros (before & after & ->). exists before, (after +:+ c).
  by rewrite !str_app_assoc.
Qed.

Ltac find_field :=
  repeat first [apply occurs_in_here | apply occurs_in_later].

Section Rendering_claims.

Variable str_other : Py.value -> string.
Variable model : list Event -> Response.

Lemma fields_in_render b s l :
  Forall (fun v => Spec.occurs_in (Py.str str_other v)
                     (render_context str_other b s l))
         (Spec.record_fields b s l).
Proof.
  unfold Spec.record_fields, render_context. cbv zeta.
  repeat constructor; find_field.
Qed.

Lemma fields_in_medicine_instructions b s l :
  Forall (fun v => Spec.occurs_in (Py.str str_other v)
                     (medicine_instructions (render_context str_other b s l)))
         (Spec.record_fields b s l).
Proof.
  eapply Forall_impl; [apply fields_in_render|].
  intros v Hv. unfold medicine_instructions.
  by apply occurs_in_later, occurs_in_before.
Qed.

(** C8. Rendering is a function of the records: equal records give the
    same text, and re-rendering the records held in the globals after any
    run gives the text built at start.  The text is put as it is into the
    prompts of the medicine agent and of the triage agent, and the [str]
    of every field of every record occurs in the medicine agent's
    prompt. *)
Theorem rendered_context_is_stable_and_complete :
  (forall b s l b' s' l',
      b = b' -> s = s' -> l = l' ->
      render_context str_other b s l = render_context str_other b' s' l')
  /\ (forall c key stdin,
        exists g,
          globals (snd (program str_other model (Some (String c key)) stdin))
            = Some g
          /\ render_context str_other (g_bank_account g) (g_student g)
               (g_library_book g) = g_local_context_text g)
  /\ instructions (medicine_agent str_other)
     = medicine_instructions (local_context_text str_other)
  /\ instructions (triage_agent str_other model)
     = triage_instructions (local_context_text str_other)
  /\ Spec.occurs_in (local_context_text str_other)
                    (instructions (medicine_agent str_other))
  /\ Forall (fun v => Spec.occurs_in (Py.str str_other v)
                        (instructions (medicine_agent str_other)))
            (Spec.record_fields bank_account student library_book)
  /\ (forall b s l,
        Forall (fun v => Spec.occurs_in (Py.str str_other v)
                           (medicine_instructions (render_context str_other b s l)))
               (Spec.record_fields b s l)).
Proof.
  split; [by intros b s l ? ? ? -> -> ->|].
  split.
  { intros c key stdin. exists (module_globals str_other). split; [|reflexivity].
    unfold program. cbn [os_getenv Py.truthy String.eqb negb].
    by rewrite main_unfold, main_loop_globals. }
  split; [reflexivity|]. split; [reflexivity|].
  split; [apply occurs_in_later, occurs_in_here|].
  split; [apply fields_in_medicine_instructions|].
  apply fields_in_medicine_instructions.
Qed.

End Rendering_claims.

(** The rendered text of the program's records. *)
Example local_context_text_value :
  local_context_text Sample.str_other = "
Bank Account:
  Account Number: ACC-789456
  Customer Name: Fatima Khan
  Account Balance: 75500.5
  Account Type: savings

Student Profile:
  ID: STU-456
  Name: Hassan Ahmed
  Semester: 4
  Total Courses: 5

Library Book:
  ID: BOOK-123
  Title: Python Programming
  Author: John Smith
  Available: True
".
Proof. reflexivity. Qed.

(** * The program on concrete inputs *)

(** The exit tokens, written out. *)
Example exit_tokens_value :
  Spec.exit_tokens
  = ["exit"; "Exit"; "eXit"; "EXit"; "exIt"; "ExIt"; "eXIt"; "EXIt";
     "exiT"; "ExiT"; "eXiT"; "EXiT"; "exIT"; "ExIT"; "eXIT"; "EXIT";
     "quit"; "Quit"; "qUit"; "QUit"; "quIt"; "QuIt"; "qUIt"; "QUIt";
     "quiT"; "QuiT"; "qUiT"; "QUiT"; "quIT"; "QuIT"; "qUIT"; "QUIT"].
Proof. reflexivity. Qed.

Example strip_lower_values :
  Py.strip (String (ascii_of_nat 9) " a b  " +:+ LF) = "a b"
  /\ Py.strip "   " = ""
  /\ Py.lower "QuIt Now-9" = "quit now-9".
Proof. repeat split; reflexivity. Qed.

(** Unicode whitespace is stripped (U+00A0, U+3000, U+2003); U+200B, which
    Python does not take for whitespace, stays. *)
Example strip_unicode_values :
  Py.strip (Spec.bytes [194; 160] +:+ "exit" +:+ Spec.bytes [227; 128; 128]) = "exit"
  /\ Py.strip (Spec.bytes [226; 128; 131; 32; 194; 160]) = ""
  /\ Spec.blank (Spec.bytes [226; 128; 131; 32; 194; 160]) = true
  /\ Py.strip (Spec.bytes [226; 128; 139] +:+ "a") = Spec.bytes [226; 128; 139] +:+ "a"
  /\ Spec.blank (Spec.bytes [226; 128; 139]) = false.
Proof. repeat split; reflexivity. Qed.

(** A session: a medicine question is answered by the specialist, an empty
    and a blank line are skipped, [QuIt] ends the loop, the last line is
    never read. *)
Example session_answered :
  program Sample.str_other Sample.helpful_model (Some "sk-test")
    ["  What causes a fever?  "; ""; "   "; " QuIt "; "never read"]
  = (Ok tt,
     {| globals := Some (module_globals Sample.str_other);
        log := [EvStdout ("Medicine Query Bot (Guardrails + Local Context Enabled)" +:+ LF);
                EvStdout ("Type 'exit' to quit." +:+ LF +:+ LF);
                EvStdout "Your Question: ";
                EvStdin "  What causes a fever?  ";
                classifier_call "What causes a fever?";
                call_of (triage_agent Sample.str_other Sample.helpful_model)
                  "What causes a fever?" config;
                call_of (medicine_agent Sample.str_other)
                  "What causes a fever?" config;
                EvStdout (LF +:+ "--- Agent Answer ---" +:+ LF);
                EvStdout ("Rest and fluids." +:+ LF);
                EvStdout ("--------------------" +:+ LF +:+ LF);
                EvStdout "Your Question: "; EvStdin "";
                EvStdout "Your Question: "; EvStdin "   ";
                EvStdout "Your Question: "; EvStdin " QuIt ";
                EvStdout ("Goodbye!" +:+ LF)] |}).
Proof. vm_compute. reflexivity. Qed.

(** A session: an off-topic question is blocked, then standard input ends. *)
Example session_blocked :
  program Sample.str_other Sample.refusing_model (Some "sk-test")
    ["What's my account balance?"]
  = (Raise EOFError,
     {| globals := Some (module_globals Sample.str_other);
        log := [EvStdout ("Medicine Query Bot (Guardrails + Local Context Enabled)" +:+ LF);
                EvStdout ("Type 'exit' to quit." +:+ LF +:+ LF);
                EvStdout "Your Question: ";
                EvStdin "What's my account balance?";
                classifier_call "What's my account balance?";
                block_event;
                EvStdout "Your Question: "] |}).
Proof. vm_compute. reflexivity. Qed.

(** C1 fails as stated.  With a model whose invocations fail, the first
    query ends the whole run with the error: nothing is written after the
    prompt (no error notice), and the next line, [exit], is never read. *)
Lemma C1_error_ends_the_loop :
  program Sample.str_other Sample.failing_model (Some "sk-test")
    ["What causes a fever?"; "exit"]
  = (Raise (ModelError "timeout"),
     {| globals := Some (module_globals Sample.str_other);
        log := [EvStdout ("Medicine Query Bot (Guardrails + Local Context Enabled)" +:+ LF);
                EvStdout ("Type 'exit' to quit." +:+ LF +:+ LF);
                EvStdout "Your Question: ";
                EvStdin "What causes a fever?";
                classifier_call "What causes a fever?"] |}).
Proof. vm_compute. reflexivity. Qed.

Lemma invocation_failure_escapes_witness :
  (Py.strip "What causes a fever?" ∉ Spec.exit_tokens)
  /\ Spec.blank "What causes a fever?" = false
  /\ run_query Sample.str_other Sample.failing_model (Py.strip "What causes a fever?")
       (extend Sample.w0 (prompt_events "What causes a fever?"))
     = (Raise (ModelError "timeout"),
        extend Sample.w0 (prompt_events "What causes a fever?"
                          ++ [classifier_call "What causes a fever?"]))
  /\ main_loop Sample.str_other Sample.failing_model
       ["What causes a fever?"; "exit"] Sample.w0
     = (Raise (ModelError "timeout"),
        extend Sample.w0 (prompt_events "What causes a fever?"
                          ++ [classifier_call "What causes a fever?"])).
Proof.
  assert (Py.strip "What causes a fever?" ∉ Spec.exit_tokens) as Hexit
    by (apply (bool_decide_unpack _); vm_compute; exact I).
  split; [exact Hexit|]. split; [reflexivity|].
  destruct (invocation_failure_escapes Sample.str_other Sample.failing_model
              "What causes a fever?" ["exit"] Sample.w0 (ModelError "timeout")
              (extend Sample.w0 (prompt_events "What causes a fever?"
                                 ++ [classifier_call "What causes a fever?"]))
              Hexit eq_refl eq_refl eq_refl) as (Hquery & Hloop & _).
  split; [exact Hquery | exact Hloop].
Defined.

Lemma blocked_query_short_circuits_witness :
  is_medicine (Py.VMedicineOutput "Not a medicine question." false) = false
  /\ run_query Sample.str_other Sample.refusing_model "What's my account balance?" Sample.w0
     = (Ok tt, extend Sample.w0 [classifier_call "What's my account balance?"; block_event]).
Proof.
  split; [reflexivity|].
  exact (proj1 (blocked_query_short_circuits Sample.str_other Sample.refusing_model
                  "What's my account balance?" Sample.w0
                  (Py.VMedicineOutput "Not a medicine question." false)
                  eq_refl eq_refl)).
Defined.


(** C5 fails as stated.  The mapping returned here is malformed (its
    [isMedicineQuery] is a string, not a boolean), yet the verdict does not
    trigger the tripwire: the query is allowed. *)
Lemma C5_malformed_output_allowed :
  Spec.classification (Py.VDict {[ "isMedicineQuery" := Py.VStr "no" ]}) = None
  /\ medicine_guardrail Sample.sloppy_model tt "Triage Agent" "What's my account balance?" Sample.w0
     = (Ok {| output_info := Py.VDict {[ "isMedicineQuery" := Py.VStr "no" ]};
              tripwire_triggered := false |},
        observe (classifier_call "What's my account balance?") Sample.w0).
Proof. split; reflexivity. Qed.

Lemma guardrail_verdict_witness :
  exists g,
    medicine_guardrail Sample.helpful_model tt "Triage Agent" "What causes a fever?" Sample.w0
    = (Ok g, observe (classifier_call "What causes a fever?") Sample.w0)
    /\ output_info g = Py.VMedicineOutput "ok" true
    /\ Spec.allowed g = true.
Proof.
  exact (guardrail_verdict Sample.helpful_model tt "Triage Agent"
           "What causes a fever?" Sample.w0 (Py.VMedicineOutput "ok" true) eq_refl).
Defined.

Lemma context_is_read_only_and_queries_are_independent_witness :
  (forall evs, Sample.refusing_model (log Sample.w1 ++ evs)
               = Sample.refusing_model (log Sample.w0 ++ evs))
  /\ exists r evs,
       run_query Sample.str_other Sample.refusing_model "What's my account balance?" Sample.w1
       = (r, extend Sample.w1 evs)
       /\ run_query Sample.str_other Sample.refusing_model "What's my account balance?" Sample.w0
          = (r, extend Sample.w0 evs).
Proof.
  split; [reflexivity|].
  exact (proj2 (proj2 (proj2
           (context_is_read_only_and_queries_are_independent
              Sample.str_other Sample.refusing_model Sample.refusing_model)))
           "What's my account balance?" Sample.w1 Sample.w0 (fun _ => eq_refl)).
Defined.

Lemma rendered_context_is_stable_and_complete_witness :
  render_context Sample.str_other bank_account student library_book
  = render_context Sample.str_other bank_account student library_book.
Proof.
  exact (proj1 (rendered_context_is_stable_and_complete
                  Sample.str_other Sample.helpful_model)
           bank_account student library_book bank_account student library_book
           eq_refl eq_refl eq_refl).
Defined.

(** * Further properties of the code *)

(** ** Events of a query, by kind *)

Lemma stdin_of_app evs1 evs2 :
  Loop.stdin_of (evs1 ++ evs2) = Loop.stdin_of evs1 ++ Loop.stdin_of evs2.
Proof. apply omap_app. Qed.

Lemma invoked_app evs1 evs2 :
  Spec.invoked (evs1 ++ evs2) = Spec.invoked evs1 ++ Spec.invoked evs2.
Proof. apply omap_app. Qed.

Lemma calls_on_stdin q cfg evs : calls_on q cfg evs -> Loop.stdin_of evs = [].
Proof.
  induction 1 as [|e evs [b ->] _ IH]; [reflexivity | exact IH].
Qed.

Section Query_outcomes.

Variable str_other : Py.value -> string.
Variable model : list Event -> Response.

Local Abbreviation triage := (triage_agent str_other model).

(** The three ways a query can end. *)
Lemma run_query_cases q w :
  (exists output,
      model (log (observe (classifier_call q) w)) = RespFinal output
      /\ is_medicine output = false
      /\ run_query str_other model q w
         = (Ok tt, extend w [classifier_call q; block_event]))
  \/ (exists r calls,
        calls_on q config calls
        /\ run_query str_other model q w
           = (Ok tt, extend w (classifier_call q :: call_of triage q config
                               :: calls ++ answer_events str_other (final_output r))))
  \/ (exists e calls,
        is_invocation_failure e = true
        /\ calls_on q config calls
        /\ run_query str_other model q w
           = (Raise e, extend w (classifier_call q :: calls))).
Proof.
  rewrite run_query_unfold, Runner_run_triage. cbv zeta.
  destruct (model _) as [v|t|msg] eqn:Hreply.
  - destruct (is_medicine v) eqn:Hv.
    + destruct (run_agent_spec model triage q config (observe (classifier_call q) w))
        as (evs & Hw & Hcalls & Hexn).
      destruct (run_agent model triage q config _) as [[r|e] w'];
        simpl in Hw, Hexn; subst w'.
      * right; left. exists r, evs. split; [exact Hcalls|].
        unfold observe. by rewrite !extend_extend.
      * right; right. specialize (Hexn e eq_refl).
        assert (is_tripwire e = false) as -> by (by destruct e).
        exists e, (call_of triage q config :: evs).
        split; [exact Hexn|]. split.
        { constructor; [by exists triage | exact Hcalls]. }
        unfold observe. by rewrite extend_extend.
    + left. exists v. split; [reflexivity|]. split; [exact Hv|].
      cbn [is_tripwire]. unfold observe. by rewrite !extend_extend.
  - right; right. exists (ModelBehaviorError t), [].
    split; [reflexivity|]. split; [constructor | reflexivity].
  - right; right. exists (ModelError msg), [].
    split; [reflexivity|]. split; [constructor | reflexivity].
Qed.

(** A query reads nothing from standard input. *)
Lemma run_query_no_stdin q w :
  exists evs,
    snd (run_query str_other model q w) = extend w evs
    /\ Loop.stdin_of evs = []
    /\ evs <> [].
Proof.
  destruct (run_query_cases q w)
    as [(v & _ & _ & ->) | [(r & calls & Hc & ->) | (e & calls & _ & Hc & ->)]].
  - by eexists.
  - eexists. split; [reflexivity|]. split; [|discriminate].
    change (classifier_call q :: call_of triage q config
            :: calls ++ answer_events str_other (final_output r))
      with ([classifier_call q; call_of triage q config]
            ++ calls ++ answer_events str_other (final_output r)).
    rewrite !stdin_of_app, (calls_on_stdin _ _ _ Hc). reflexivity.
  - eexists. split; [reflexivity|]. split; [|discriminate].
    change (classifier_call q :: calls) with ([classifier_call q] ++ calls).
    rewrite stdin_of_app, (calls_on_stdin _ _ _ Hc). reflexivity.
Qed.

(** How the loop can end on [stdin], and what it has read by then. *)
Lemma main_loop_outcome stdin : forall w,
  exists evs,
    snd (main_loop str_other model stdin w) = extend w evs
    /\ match fst (main_loop str_other model stdin w) with
       | Ok _ =>
           exists pre tok rest,
             stdin = pre ++ tok :: rest
             /\ Py.strip tok ∈ Spec.exit_tokens
             /\ Forall (fun l => Py.strip l ∉ Spec.exit_tokens) pre
             /\ Loop.stdin_of evs = pre ++ [tok]
             /\ last evs = Some Loop.goodbye_event
       | Raise EOFError =>
           Loop.stdin_of evs = stdin
           /\ Forall (fun l => Py.strip l ∉ Spec.exit_tokens) stdin
           /\ last evs = Some Loop.prompt_event
       | Raise e =>
           is_invocation_failure e = true
           /\ exists pre line rest,
                stdin = pre ++ line :: rest
                /\ Forall (fun l => Py.strip l ∉ Spec.exit_tokens) (pre ++ [line])
                /\ Spec.blank line = false
                /\ Loop.stdin_of evs = pre ++ [line]
       end.
Proof.
  induction stdin as [|line rest IH]; intros w.
  - rewrite main_loop_nil. exists [Loop.prompt_event]. by repeat split.
  - rewrite main_loop_cons, loop_body_unfold.
    destruct (bool_decide_reflect (Py.strip line ∈ Spec.exit_tokens)) as [Hin|Hnin].
    + exists (prompt_events line ++ [Loop.goodbye_event]).
      unfold observe. rewrite extend_extend. split; [reflexivity|]. cbn [fst].
      exists [], line, rest. repeat split; [exact Hin | constructor].
    + destruct (Spec.blank line) eqn:Hblank.
      * destruct (IH (extend w (prompt_events line))) as (evs & Hw & Hcase).
        exists (prompt_events line ++ evs). rewrite Hw, extend_extend.
        split; [reflexivity|].
        destruct (fst (main_loop str_other model rest _)) as [[]|e].
        -- destruct Hcase as (pre & tok & rest' & -> & Htok & Hpre & Hread & Hlast).
           exists (line :: pre), tok, rest'. repeat split; [exact Htok | | |].
           ++ by constructor.
           ++ rewrite stdin_of_app, Hread. reflexivity.
           ++ rewrite last_app, Hlast. reflexivity.
        -- destruct e; try (destruct Hcase as [Hf _]; discriminate).
           ++ destruct Hcase as (Hread & Hall & Hlast). repeat split.
              ** rewrite stdin_of_app, Hread. reflexivity.
              ** by constructor.
              ** rewrite last_app, Hlast. reflexivity.
           ++ destruct Hcase as (Hf & pre & l & rest' & -> & Hall & Hb & Hread).
              split; [exact Hf|]. exists (line :: pre), l, rest'.
              repeat split; [by constructor | exact Hb |].
              rewrite stdin_of_app, Hread. reflexivity.
           ++ destruct Hcase as (Hf & pre & l & rest' & -> & Hall & Hb & Hread).
              split; [exact Hf|]. exists (line :: pre), l, rest'.
              repeat split; [by constructor | exact Hb |].
              rewrite stdin_of_app, Hread. reflexivity.
      * destruct (run_query_no_stdin (Py.strip line) (extend w (prompt_events line)))
          as (qevs & Hq & Hnone & _).
        pose proof (run_query_raises str_other model (Py.strip line)
                      (extend w (prompt_events line))) as Hraise.
        destruct (run_query str_other model (Py.strip line) _) as [[[]|e] w'];
          simpl in Hq, Hraise; subst w'.
        -- destruct (IH (extend (extend w (prompt_events line)) qevs))
             as (evs & Hw & Hcase).
           exists (prompt_events line ++ qevs ++ evs).
           rewrite Hw. split; [by rewrite !extend_extend|].
           destruct (fst (main_loop str_other model rest _)) as [[]|e].
           ++ destruct Hcase as (pre & tok & rest' & -> & Htok & Hpre & Hread & Hlast).
              exists (line :: pre), tok, rest'. repeat split; [exact Htok | | |].
              ** by constructor.
              ** rewrite !stdin_of_app, Hnone, Hread. reflexivity.
              ** rewrite !last_app, Hlast. reflexivity.
           ++ destruct e; try (destruct Hcase as [Hf _]; discriminate).
              ** destruct Hcase as (Hread & Hall & Hlast). repeat split.
                 --- rewrite !stdin_of_app, Hnone, Hread. reflexivity.
                 --- by constructor.
                 --- rewrite !last_app, Hlast. reflexivity.
              ** destruct Hcase as (Hf & pre & l & rest' & -> & Hall & Hb & Hread).
                 split; [exact Hf|]. exists (line :: pre), l, rest'.
                 repeat split; [by constructor | exact Hb |].
                 rewrite !stdin_of_app, Hnone, Hread. reflexivity.
              ** destruct Hcase as (Hf & pre & l & rest' & -> & Hall & Hb & Hread).
                 split; [exact Hf|]. exists (line :: pre), l, rest'.
                 repeat split; [by constructor | exact Hb |].
                 rewrite !stdin_of_app, Hnone, Hread. reflexivity.
        -- specialize (Hraise e eq_refl).
           exists (prompt_events line ++ qevs). rewrite extend_extend.
           split; [reflexivity|]. cbn [fst].
           assert (is_invocation_failure e = true
                   /\ exists pre l rest',
                        line :: rest = pre ++ l :: rest'
                        /\ Forall (fun l => Py.strip l ∉ Spec.exit_tokens) (pre ++ [l])
                        /\ Spec.blank l = false
                        /\ Loop.stdin_of (prompt_events line ++ qevs) = pre ++ [l])
             as Hgoal.
           { split; [exact Hraise|]. exists [], line, rest.
             repeat split; [by constructor | exact Hblank |].
             rewrite stdin_of_app, Hnone. reflexivity. }
           destruct e; try discriminate; exact Hgoal.
Qed.

End Query_outcomes.

(** ** Properties of the guardrail and of one query *)

Section Query_cover.

Variable str_other : Py.value -> string.
Variable model : list Event -> Response.

Local Abbreviation triage := (triage_agent str_other model).

(** X7. A query ends in exactly one of three ways: blocked (only the block
    notice is written and no agent beyond the classifier is invoked),
    answered (the three answer lines are written, after the triage agent was
    invoked), or failed (an invocation failure is raised and nothing is
    written).  It always starts with the classifier's invocation and never
    reads standard input. *)
Theorem query_outcomes q w :
  exists evs,
    snd (run_query str_other model q w) = extend w (classifier_call q :: evs)
    /\ Loop.stdin_of evs = []
    /\ ((fst (run_query str_other model q w) = Ok tt
         /\ Spec.stdout_of evs = [block_notice +:+ LF]
         /\ Spec.invoked evs = [])
        \/ (fst (run_query str_other model q w) = Ok tt
            /\ (exists v, Spec.stdout_of evs
                          = Spec.stdout_of (answer_events str_other v))
            /\ head (Spec.invoked evs) = Some "Triage Agent")
        \/ (exists e, fst (run_query str_other model q w) = Raise e
                      /\ is_invocation_failure e = true
                      /\ Spec.stdout_of evs = [])).
Proof.
  destruct (run_query_cases str_other model q w)
    as [(v & _ & _ & ->) | [(r & calls & Hc & ->) | (e & calls & Hf & Hc & ->)]].
  - exists [block_event]. split; [reflexivity|]. split; [reflexivity|].
    left. by repeat split.
  - eexists. split; [reflexivity|].
    change (call_of triage q config :: calls ++ answer_events str_other (final_output r))
      with ([call_of triage q config] ++ calls ++ answer_events str_other (final_output r)).
    rewrite !stdin_of_app, !stdout_of_app, (calls_on_stdin _ _ _ Hc),
      (calls_on_stdout _ _ _ Hc).
    split; [reflexivity|]. right; left.
    split; [reflexivity|]. split; [by exists (final_output r) | reflexivity].
  - exists calls. split; [reflexivity|].
    split; [by eapply calls_on_stdin|]. right; right.
    exists e. split; [reflexivity|]. split; [exact Hf | by eapply calls_on_stdout].
Qed.

(** X8. The guardrail does not fail closed on errors: when the classifier's
    invocation fails, [medicine_guardrail] returns no verdict but raises the
    failure, and the query ends with that error right after the classifier's
    invocation: no block notice, no agent run. *)
Theorem classifier_failure_is_raised ctx agent q w msg :
  model (log (observe (classifier_call q) w)) = RespError msg ->
  medicine_guardrail model ctx agent q w
    = (Raise (ModelError msg), observe (classifier_call q) w)
  /\ run_query str_other model q w
     = (Raise (ModelError msg), observe (classifier_call q) w).
Proof.
  intros Hreply. split.
  - rewrite medicine_guardrail_run. cbv zeta. by rewrite Hreply.
  - rewrite run_query_unfold, Runner_run_triage. cbv zeta. by rewrite Hreply.
Qed.

Lemma run_triage_invoked q w :
  exists evs,
    snd (run_agent model triage q config w) = extend w evs
    /\ (Spec.invoked evs = ["Triage Agent"]
        \/ Spec.invoked evs = ["Triage Agent"; "Medicine Agent"]).
Proof.
  rewrite run_agent_unfold. cbv zeta.
  destruct (model _) as [v|t|msg];
    try (exists [call_of triage q config]; split; [reflexivity | by left]).
  cbn [handoffs triage_agent handoff_to find].
  destruct (String.eqb _ t);
    [|exists [call_of triage q config]; split; [reflexivity | by left]].
  rewrite run_agent_unfold. cbv zeta.
  exists [call_of triage q config; call_of (medicine_agent str_other) q config].
  split; [|by right].
  destruct (model _) as [v'|t'|msg']; unfold observe; by rewrite extend_extend.
Qed.

(** X11. The agents a query invokes are an initial part of the sequence
    classifier, triage, specialist: the classifier is always invoked first,
    the specialist only after the triage agent, and no query costs more than
    three model invocations. *)
Theorem agents_are_invoked_in_order q w :
  exists evs,
    snd (run_query str_other model q w) = extend w evs
    /\ Spec.invoked evs `prefix_of` Loop.agent_order
    /\ head (Spec.invoked evs) = Some "Guardrail Agent"
    /\ length (Spec.invoked evs) <= 3.
Proof.
  rewrite run_query_unfold, Runner_run_triage. cbv zeta.
  assert (forall l : list string,
             l = ["Guardrail Agent"]
             \/ l = ["Guardrail Agent"; "Triage Agent"]
             \/ l = ["Guardrail Agent"; "Triage Agent"; "Medicine Agent"] ->
             l `prefix_of` Loop.agent_order
             /\ head l = Some "Guardrail Agent" /\ length l <= 3) as Hshape.
  { intros l [-> | [-> | ->]]; (split; [|split; [reflexivity | simpl; lia]]).
    - by exists ["Triage Agent"; "Medicine Agent"].
    - by exists ["Medicine Agent"].
    - by exists []. }
  destruct (model _) as [v|t|msg].
  - destruct (is_medicine v).
    + destruct (run_triage_invoked q (observe (classifier_call q) w))
        as (evs & Hw & Hinv).
      destruct (run_agent model triage q config _) as [[r|e] w'];
        simpl in Hw; subst w'.
      * exists (classifier_call q :: evs ++ answer_events str_other (final_output r)).
        unfold observe. rewrite !extend_extend. split; [reflexivity|].
        apply Hshape.
        change (classifier_call q :: evs ++ answer_events str_other (final_output r))
          with ([classifier_call q] ++ evs ++ answer_events str_other (final_output r)).
        rewrite !invoked_app. cbn [Spec.invoked answer_events omap].
        rewrite app_nil_r.
        destruct Hinv as [-> | ->]; [right; left | right; right]; reflexivity.
      * exists (classifier_call q :: evs
                ++ (if is_tripwire e then [block_event] else [])).
        split.
        { destruct (is_tripwire e); unfold observe;
            rewrite ?extend_extend, ?app_nil_r; reflexivity. }
        apply Hshape.
        change (classifier_call q :: evs ++ (if is_tripwire e then [block_event] else []))
          with ([classifier_call q] ++ evs ++ (if is_tripwire e then [block_event] else [])).
        rewrite !invoked_app.
        assert (Spec.invoked (if is_tripwire e then [block_event] else []) = [])
          as -> by (by destruct (is_tripwire e)).
        rewrite app_nil_r.
        destruct Hinv as [-> | ->]; [right; left | right; right]; reflexivity.
    + exists [classifier_call q; block_event]. cbn [is_tripwire].
      unfold observe. rewrite !extend_extend. split; [reflexivity|].
      apply Hshape. by left.
  - exists [classifier_call q]. split; [reflexivity|]. apply Hshape. by left.
  - exists [classifier_call q]. split; [reflexivity|]. apply Hshape. by left.
Qed.

End Query_cover.

(** X9. The guardrail reads a mapping through the one key
    ["isMedicineQuery"] only: two mappings that agree on it are read alike,
    so adding or changing any other key changes nothing, an empty mapping is
    not a medicine query, and the [response] of a [MedicineOutput] plays no
    part. *)
Theorem is_medicine_reads_one_key :
  (forall d d' : gmap string Py.value,
      d !! "isMedicineQuery" = d' !! "isMedicineQuery" ->
      is_medicine (Py.VDict d) = is_medicine (Py.VDict d'))
  /\ (forall (k : string) v (d : gmap string Py.value),
        k <> "isMedicineQuery" ->
        is_medicine (Py.VDict (<[k := v]> d)) = is_medicine (Py.VDict d))
  /\ (forall (k : string) (d : gmap string Py.value),
        k <> "isMedicineQuery" ->
        is_medicine (Py.VDict (delete k d)) = is_medicine (Py.VDict d))
  /\ is_medicine (Py.VDict ∅) = false
  /\ (forall r r' b,
        is_medicine (Py.VMedicineOutput r b) = is_medicine (Py.VMedicineOutput r' b)).
Proof.
  split; [|split; [|split; [|split]]]; try reflexivity.
  - intros d d' Heq. unfold is_medicine, Py.dict_get. by rewrite Heq.
  - intros k v d Hk. unfold is_medicine, Py.dict_get.
    by rewrite lookup_insert_ne.
  - intros k d Hk. unfold is_medicine, Py.dict_get.
    by rewrite lookup_delete_ne.
Qed.

(** ** Properties of the interactive loop *)

Section Loop_cover.

Variable str_other : Py.value -> string.
Variable model : list Event -> Response.

(** X1. Whitespace around a line never matters: a line padded on either
    side with whitespace is handled exactly as the line itself, whether it
    ends the loop, is skipped or is run as a query. *)
Theorem loop_body_ignores_padding p line p' w :
  Spec.blank p = true ->
  Spec.blank p' = true ->
  loop_body str_other model (p +:+ line +:+ p') w
  = loop_body str_other model line w.
Proof.
  intros Hp Hp'. unfold loop_body. by rewrite strip_pad.
Qed.

(** X3. The loop reads standard input in order, one line at a time: the
    lines it has read when it ends, however it ends, are an initial part of
    the input. *)
Theorem lines_read_form_prefix stdin w :
  exists evs,
    snd (main_loop str_other model stdin w) = extend w evs
    /\ Loop.stdin_of evs `prefix_of` stdin.
Proof.
  destruct (main_loop_outcome str_other model stdin w) as (evs & Hw & Hcase).
  exists evs. split; [exact Hw|].
  destruct (fst (main_loop str_other model stdin w)) as [[]|e].
  - destruct Hcase as (pre & tok & rest & -> & _ & _ & -> & _).
    exists rest. by rewrite <- app_assoc.
  - assert (e = EOFError \/ exists pre l rest,
               stdin = pre ++ l :: rest /\ Loop.stdin_of evs = pre ++ [l])
      as [-> | (pre & l & rest & -> & ->)].
    { destruct e; try (right; destruct Hcase as (_ & pre & l & rest & H1 & _ & _ & H2);
                       by exists pre, l, rest).
      by left. }
    + destruct Hcase as (-> & _). reflexivity.
    + exists rest. by rewrite <- app_assoc.
Qed.

(** X4. The loop returns normally only through an exit token: it has then
    read the input up to and including the first line that is one, nothing
    after it, and the farewell is the last thing written. *)
Theorem normal_end_only_by_exit_token stdin w :
  fst (main_loop str_other model stdin w) = Ok tt ->
  exists pre tok rest evs,
    stdin = pre ++ tok :: rest
    /\ Py.strip tok ∈ Spec.exit_tokens
    /\ Forall (fun l => Py.strip l ∉ Spec.exit_tokens) pre
    /\ snd (main_loop str_other model stdin w) = extend w evs
    /\ Loop.stdin_of evs = pre ++ [tok]
    /\ last evs = Some Loop.goodbye_event.
Proof.
  intros Hok.
  destruct (main_loop_outcome str_other model stdin w) as (evs & Hw & Hcase).
  rewrite Hok in Hcase.
  destruct Hcase as (pre & tok & rest & Hs & Htok & Hpre & Hread & Hlast).
  by exists pre, tok, rest, evs.
Qed.

(** X5. The only exceptions that leave [main] are [EOFError] and failures of
    a model invocation: the guardrail tripwire never escapes, and no
    [ValueError] is raised once the loop runs. *)
Theorem main_raises_only stdin w e :
  fst (main str_other model stdin w) = Raise e ->
  (e = EOFError \/ is_invocation_failure e = true)
  /\ e <> InputGuardrailTripwireTriggered
  /\ forall msg, e <> ValueError msg.
Proof.
  rewrite main_unfold. intros Hraise.
  apply main_loop_raises in Hraise.
  split; [exact Hraise|].
  destruct Hraise as [-> | Hf].
  - split; [discriminate | intros msg; discriminate].
  - split; [|intros msg]; intros ->; discriminate.
Qed.

(** X6. When the loop ends with [EOFError], it has read every line of the
    input, none of them was an exit token, and the last thing written is the
    prompt that found no line. *)
Theorem eof_after_all_lines stdin w :
  fst (main_loop str_other model stdin w) = Raise EOFError ->
  exists evs,
    snd (main_loop str_other model stdin w) = extend w evs
    /\ Loop.stdin_of evs = stdin
    /\ Forall (fun l => Py.strip l ∉ Spec.exit_tokens) stdin
    /\ last evs = Some Loop.prompt_event.
Proof.
  intros Heof.
  destruct (main_loop_outcome str_other model stdin w) as (evs & Hw & Hcase).
  rewrite Heof in Hcase. destruct Hcase as (Hread & Hall & Hlast).
  by exists evs.
Qed.

Lemma blank_not_exit line :
  Spec.blank line = true -> bool_decide (Py.strip line ∈ Spec.exit_tokens) = false.
Proof.
  intros Hb. pose proof (strip_empty_blank line) as Hs. rewrite Hb in Hs.
  apply String.eqb_eq in Hs. rewrite Hs. reflexivity.
Qed.

(** X12. On an input of empty and whitespace-only lines (the empty input
    included) the loop only prompts and reads, invokes no model, and ends
    with [EOFError]. *)
Theorem blank_input_invokes_nothing stdin w :
  Forall (fun l => Spec.blank l = true) stdin ->
  main_loop str_other model stdin w
  = (Raise EOFError,
     extend w (flat_map prompt_events stdin ++ [Loop.prompt_event]))
  /\ Spec.invoked (flat_map prompt_events stdin ++ [Loop.prompt_event]) = [].
Proof.
  intros Hall. split.
  - revert w. induction Hall as [|line rest Hb _ IH]; intros w.
    + by rewrite main_loop_nil.
    + rewrite main_loop_cons, loop_body_unfold, (blank_not_exit _ Hb), Hb, IH.
      rewrite extend_extend. cbn [flat_map]. by rewrite <- app_assoc.
  - rewrite invoked_app. cbn. rewrite app_nil_r.
    induction stdin as [|line rest IH]; [reflexivity|].
    apply Forall_inv_tail in Hall. cbn. auto.
Qed.

(** X13. What follows the first exit token is never looked at: the loop
    behaves the same whatever lines come after it. *)
Theorem rest_after_exit_is_irrelevant pre tok rest w :
  Py.strip tok ∈ Spec.exit_tokens ->
  main_loop str_other model (pre ++ tok :: rest) w
  = main_loop str_other model (pre ++ [tok]) w.
Proof.
  intros Htok. revert w. induction pre as [|line pre IH]; intros w.
  - cbn [app]. rewrite !main_loop_cons, !loop_body_unfold.
    by rewrite (bool_decide_eq_true_2 _ Htok).
  - cbn [app]. rewrite !main_loop_cons.
    destruct (loop_body str_other model line _) as [[[]|e] w']; auto.
Qed.

(** X10. The triage agent's prompt carries the whole rendered context too:
    the text occurs in it as it is, and so does the [str] of every field of
    every record, for any records rendered. *)
Theorem context_in_triage_prompt :
  Spec.occurs_in (local_context_text str_other)
                 (instructions (triage_agent str_other model))
  /\ Forall (fun v => Spec.occurs_in (Py.str str_other v)
                        (instructions (triage_agent str_other model)))
            (Spec.record_fields bank_account student library_book)
  /\ (forall b s l,
        Forall (fun v => Spec.occurs_in (Py.str str_other v)
                           (triage_instructions (render_context str_other b s l)))
               (Spec.record_fields b s l)).
Proof.
  assert (forall b s l,
             Forall (fun v => Spec.occurs_in (Py.str str_other v)
                                (triage_instructions (render_context str_other b s l)))
                    (Spec.record_fields b s l)) as Hall.
  { intros b s l. eapply Forall_impl; [apply (fields_in_render str_other)|].
    intros v Hv. unfold triage_instructions.
    by apply occurs_in_later, occurs_in_before. }
  split; [apply occurs_in_later, occurs_in_here|].
  split; [apply Hall | exact Hall].
Qed.

End Loop_cover.

(** ** The further properties on concrete inputs *)

Lemma loop_body_ignores_padding_witness :
  Spec.blank "  " = true
  /\ Spec.blank (String (ascii_of_nat 9) " ") = true
  /\ loop_body Sample.str_other Sample.helpful_model
       ("  " +:+ "What causes a fever?" +:+ String (ascii_of_nat 9) " ") Sample.w0
     = loop_body Sample.str_other Sample.helpful_model "What causes a fever?" Sample.w0.
Proof.
  split; [reflexivity|]. split; [reflexivity|].
  exact (loop_body_ignores_padding Sample.str_other Sample.helpful_model
           "  " "What causes a fever?" (String (ascii_of_nat 9) " ") Sample.w0
           eq_refl eq_refl).
Defined.

Lemma normal_end_only_by_exit_token_witness :
  fst (main_loop Sample.str_other Sample.helpful_model
         ["What causes a fever?"; " Exit "; "never read"] Sample.w0) = Ok tt
  /\ exists pre tok rest evs,
       ["What causes a fever?"; " Exit "; "never read"] = pre ++ tok :: rest
       /\ Py.strip tok ∈ Spec.exit_tokens
       /\ Forall (fun l => Py.strip l ∉ Spec.exit_tokens) pre
       /\ snd (main_loop Sample.str_other Sample.helpful_model
                 ["What causes a fever?"; " Exit "; "never read"] Sample.w0)
          = extend Sample.w0 evs
       /\ Loop.stdin_of evs = pre ++ [tok]
       /\ last evs = Some Loop.goodbye_event.
Proof.
  split; [reflexivity|].
  exact (normal_end_only_by_exit_token Sample.str_other Sample.helpful_model
           ["What causes a fever?"; " Exit "; "never read"] Sample.w0 eq_refl).
Defined.

Lemma main_raises_only_witness :
  fst (main Sample.str_other Sample.failing_model ["What causes a fever?"] Sample.w0)
    = Raise (ModelError "timeout")
  /\ (ModelError "timeout" = EOFError
      \/ is_invocation_failure (ModelError "timeout") = true).
Proof.
  split; [reflexivity|].
  exact (proj1 (main_raises_only Sample.str_other Sample.failing_model
                  ["What causes a fever?"] Sample.w0 (ModelError "timeout") eq_refl)).
Defined.

Lemma eof_after_all_lines_witness :
  fst (main_loop Sample.str_other Sample.refusing_model
         ["What's my account balance?"] Sample.w0) = Raise EOFError
  /\ exists evs,
       snd (main_loop Sample.str_other Sample.refusing_model
              ["What's my account balance?"] Sample.w0) = extend Sample.w0 evs
       /\ Loop.stdin_of evs = ["What's my account balance?"]
       /\ Forall (fun l => Py.strip l ∉ Spec.exit_tokens) ["What's my account balance?"]
       /\ last evs = Some Loop.prompt_event.
Proof.
  split; [reflexivity|].
  exact (eof_after_all_lines Sample.str_other Sample.refusing_model
           ["What's my account balance?"] Sample.w0 eq_refl).
Defined.

Lemma classifier_failure_is_raised_witness :
  medicine_guardrail Sample.failing_model tt "Triage Agent" "What causes a fever?" Sample.w0
    = (Raise (ModelError "timeout"), observe (classifier_call "What causes a fever?") Sample.w0)
  /\ run_query Sample.str_other Sample.failing_model "What causes a fever?" Sample.w0
     = (Raise (ModelError "timeout"), observe (classifier_call "What causes a fever?") Sample.w0).
Proof.
  exact (classifier_failure_is_raised Sample.str_other Sample.failing_model
           tt "Triage Agent" "What causes a fever?" Sample.w0 "timeout" eq_refl).
Defined.

Lemma blank_input_invokes_nothing_witness :
  main_loop Sample.str_other Sample.helpful_model [""; "   "] Sample.w0
  = (Raise EOFError,
     extend Sample.w0 (flat_map prompt_events [""; "   "] ++ [Loop.prompt_event]))
  /\ Spec.invoked (flat_map prompt_events [""; "   "] ++ [Loop.prompt_event]) = [].
Proof.
  apply (blank_input_invokes_nothing Sample.str_other Sample.helpful_model
           [""; "   "] Sample.w0).
  repeat constructor.
Defined.

Lemma rest_after_exit_is_irrelevant_witness :
  (Py.strip " QUIT " ∈ Spec.exit_tokens)
  /\ main_loop Sample.str_other Sample.helpful_model
       (["What causes a fever?"] ++ " QUIT " :: ["never"; "read"]) Sample.w0
     = main_loop Sample.str_other Sample.helpful_model
         (["What causes a fever?"] ++ [" QUIT "]) Sample.w0.
Proof.
  assert (Py.strip " QUIT " ∈ Spec.exit_tokens) as Htok
    by (apply (bool_decide_unpack _); vm_compute; exact I).
  split; [exact Htok|].
  exact (rest_after_exit_is_irrelevant Sample.str_other Sample.helpful_model
           ["What causes a fever?"] " QUIT " ["never"; "read"] Sample.w0 Htok).
Defined.

Lemma is_medicine_reads_one_key_witness :
  is_medicine (Py.VDict (<["response" := Py.VStr "yes, medicine"]>
                           {[ "isMedicineQuery" := Py.VBool true ]}))
  = is_medicine (Py.VDict {[ "isMedicineQuery" := Py.VBool true ]}).
Proof.
  apply (proj1 (proj2 is_medicine_reads_one_key)). discriminate.
Defined.

(** ** The exit tokens and the text that is forwarded *)

Lemma exit_token_strip tok : tok ∈ Spec.exit_tokens -> Py.strip tok = tok.
Proof.
  intros Hin. apply list_elem_of_In in Hin. vm_compute in Hin.
  repeat (destruct Hin as [<- | Hin]; [reflexivity|]). destruct Hin.
Qed.

(** The exit test of line 191 holds exactly on the lines that are an exit
    token with whitespace around it at most. *)
Lemma exit_line_spec line :
  Py.strip line ∈ Spec.exit_tokens <-> Spec.exit_line line.
Proof.
  split.
  - intros Hin. destruct (strip_split line) as (p & p' & Hline & Hp & Hp' & _).
    by exists p, (Py.strip line), p'.
  - intros (p & tok & p' & -> & Hp & Hp' & Hin).
    rewrite strip_pad by assumption. by rewrite exit_token_strip.
Qed.

Section Exit_claims.

Variable str_other : Py.value -> string.
Variable model : list Event -> Response.

(** C6, amended: the loop ends normally exactly on the input tokens [exit]
    and [quit] in any letter case, the line taken without the whitespace
    around it, and on no other input; besides, it ends only by an exception,
    when a model invocation for a forwarded line fails or when standard
    input has no line left.  Every other line that is not empty or
    whitespace-only is forwarded to the pipeline as a query, as its text
    without the whitespace at the two ends; empty and whitespace-only lines
    change nothing, so they never reach the classifier. *)
Theorem loop_ends_on_exit_tokens_only line rest w :
  (fst (loop_body str_other model line w) = Ok Break <-> Spec.exit_line line)
  /\ (Spec.exit_line line ->
      main_loop str_other model (line :: rest) w
      = (Ok tt, extend w (prompt_events line ++ [Loop.goodbye_event])))
  /\ (Spec.blank line = true ->
      loop_body str_other model line w = (Ok Continue, w)
      /\ main_loop str_other model (line :: rest) w
         = main_loop str_other model rest (extend w (prompt_events line)))
  /\ (~ Spec.exit_line line -> Spec.blank line = false ->
      Spec.stripped line (Py.strip line)
      /\ Py.strip line <> ""
      /\ loop_body str_other model line w
         = match run_query str_other model (Py.strip line) w with
           | (Ok _, w') => (Ok Continue, w')
           | (Raise e, w') => (Raise e, w')
           end
      /\ main_loop str_other model (line :: rest) w
         = match run_query str_other model (Py.strip line)
                   (extend w (prompt_events line)) with
           | (Ok _, w') => main_loop str_other model rest w'
           | (Raise e, w') => (Raise e, w')
           end)
  /\ (forall e,
        fst (loop_body str_other model line w) = Raise e ->
        is_invocation_failure e = true
        /\ ~ Spec.exit_line line
        /\ Spec.blank line = false
        /\ fst (run_query str_other model (Py.strip line) w) = Raise e)
  /\ main_loop str_other model [] w
     = (Raise EOFError, observe Loop.prompt_event w).
Proof.
  pose proof (exit_line_spec line) as Hexit.
  assert (forall w0,
             loop_body str_other model line w0
             = if bool_decide (Py.strip line ∈ Spec.exit_tokens)
               then (Ok Break, observe Loop.goodbye_event w0)
               else if Spec.blank line
                    then (Ok Continue, w0)
                    else match run_query str_other model (Py.strip line) w0 with
                         | (Ok _, w') => (Ok Continue, w')
                         | (Raise e, w') => (Raise e, w')
                         end) as Hbody by (intros w0; apply loop_body_unfold).
  split; [|split; [|split; [|split; [|split]]]].
  - rewrite Hbody, <- Hexit.
    destruct (bool_decide_reflect (Py.strip line ∈ Spec.exit_tokens)) as [Hin|Hnin].
    + by split.
    + split; [|done]. destruct (Spec.blank line); [discriminate|].
      by destruct (run_query _ _ _ _) as [[[]|e] w'].
  - intros Hin%Hexit. rewrite main_loop_cons, Hbody.
    rewrite (bool_decide_eq_true_2 _ Hin). unfold observe.
    by rewrite extend_extend.
  - intros Hb. split.
    + by rewrite Hbody, (blank_not_exit _ Hb), Hb.
    + by rewrite main_loop_cons, Hbody, (blank_not_exit _ Hb), Hb.
  - intros Hnot Hb.
    assert (Py.strip line ∉ Spec.exit_tokens) as Hnin by (by rewrite Hexit).
    split; [apply strip_split|]. split.
    { intros Hs. pose proof (strip_empty_blank line) as Heq.
      rewrite Hs, Hb in Heq. discriminate. }
    split.
    + by rewrite Hbody, (bool_decide_eq_false_2 _ Hnin), Hb.
    + rewrite main_loop_cons, Hbody, (bool_decide_eq_false_2 _ Hnin), Hb.
      by destruct (run_query _ _ _ _) as [[[]|e] w'].
  - intros e. rewrite Hbody, <- Hexit.
    destruct (bool_decide_reflect (Py.strip line ∈ Spec.exit_tokens)) as [Hin|Hnin];
      [discriminate|].
    destruct (Spec.blank line); [discriminate|].
    pose proof (run_query_raises str_other model (Py.strip line) w) as Hfail.
    destruct (run_query _ _ _ _) as [[[]|e'] w']; [discriminate|].
    intros [= <-]. split; [by apply Hfail|]. by repeat split.
  - apply main_loop_nil.
Qed.

(** C10. A forwarded line reaches the pipeline stripped: [line.strip()] is
    the line without the whitespace at its two ends, whatever Python takes
    for whitespace, and nothing else is taken off; the first thing the loop
    body does with a forwarded line is to invoke the classifier on that
    text, and every model invocation for the line receives it.  The exit
    test sees the stripped text too, so [exit] padded with whitespace ends
    the loop. *)
Theorem forwarded_query_is_stripped :
  (forall line, Spec.stripped line (Py.strip line))
  /\ (forall line q, Spec.stripped line q -> Py.strip line = q)
  /\ (forall line w,
        ~ Spec.exit_line line ->
        Spec.blank line = false ->
        exists evs,
          snd (loop_body str_other model line w)
            = extend w (classifier_call (Py.strip line) :: evs)
          /\ Forall (eq (Py.strip line))
                    (Spec.model_inputs (classifier_call (Py.strip line) :: evs)))
  /\ (forall w,
        loop_body str_other model "  EXIT  " w
        = (Ok Break, observe Loop.goodbye_event w))
  /\ (forall w,
        loop_body str_other model
          (Spec.bytes [194; 160] +:+ "exit" +:+ Spec.bytes [227; 128; 128]) w
        = (Ok Break, observe Loop.goodbye_event w))
  /\ Py.strip "  What causes a fever?  " = "What causes a fever?"
  /\ Py.strip (Spec.bytes [226; 128; 139] +:+ "exit")
     = Spec.bytes [226; 128; 139] +:+ "exit".
Proof.
  split; [apply strip_split|]. split.
  { intros line q (p & p' & -> & Hp & Hp' & Hq). by apply strip_unique. }
  split; [|split; [|split; [|split]]]; try reflexivity.
  intros line w Hnot Hb. rewrite loop_body_unfold.
  assert (Py.strip line ∉ Spec.exit_tokens) as Hnin
    by (by rewrite exit_line_spec).
  rewrite (bool_decide_eq_false_2 _ Hnin), Hb.
  destruct (run_query_log str_other model (Py.strip line) w) as (evs & Hw & Hin).
  exists evs. split; [|exact Hin].
  by destruct (run_query _ _ _ _) as [[[]|e] w'].
Qed.

End Exit_claims.

(** C6 fails as stated: the loop also ends on a line that is no exit token,
    when the model invocation made for it fails; the [exit] that follows is
    never read. *)
Lemma C6_failed_query_ends_the_loop :
  bool_decide (Py.strip "What causes a fever?" ∈ Spec.exit_tokens) = false
  /\ main_loop Sample.str_other Sample.failing_model
       ["What causes a fever?"; "exit"] Sample.w0
     = (Raise (ModelError "timeout"),
        extend Sample.w0 (prompt_events "What causes a fever?"
                          ++ [classifier_call "What causes a fever?"])).
Proof. split; vm_compute; reflexivity. Qed.

Lemma loop_ends_on_exit_tokens_only_witness :
  Spec.exit_line (Spec.bytes [194; 160] +:+ "Quit" +:+ " ")
  /\ main_loop Sample.str_other Sample.helpful_model
       ((Spec.bytes [194; 160] +:+ "Quit" +:+ " ") :: ["never read"]) Sample.w0
     = (Ok tt,
        extend Sample.w0
          (prompt_events (Spec.bytes [194; 160] +:+ "Quit" +:+ " ")
           ++ [Loop.goodbye_event])).
Proof.
  assert (Spec.exit_line (Spec.bytes [194; 160] +:+ "Quit" +:+ " ")) as Hexit.
  { exists (Spec.bytes [194; 160]), "Quit", " ".
    split; [reflexivity|]. split; [reflexivity|]. split; [reflexivity|].
    apply (bool_decide_unpack _). vm_compute. exact I. }
  split; [exact Hexit|].
  exact (proj1 (proj2 (loop_ends_on_exit_tokens_only
                         Sample.str_other Sample.helpful_model
                         (Spec.bytes [194; 160] +:+ "Quit" +:+ " ")
                         ["never read"] Sample.w0)) Hexit).
Defined.

Lemma forwarded_query_is_stripped_witness :
  Spec.blank "  What causes a fever?  " = false
  /\ exists evs,
       snd (loop_body Sample.str_other Sample.helpful_model
              "  What causes a fever?  " Sample.w0)
       = extend Sample.w0 (classifier_call "What causes a fever?" :: evs).
Proof.
  split; [reflexivity|].
  assert (~ Spec.exit_line "  What causes a fever?  ") as Hnot.
  { rewrite <- exit_line_spec. apply (bool_decide_unpack _). vm_compute. exact I. }
  destruct (proj1 (proj2 (proj2 (forwarded_query_is_stripped
                                   Sample.str_other Sample.helpful_model)))
              "  What causes a fever?  " Sample.w0 Hnot eq_refl) as (evs & Hw & _).
  exists evs. exact Hw.
Defined.
